(** * httpbackoff: HTTP calls retried with exponential backoff

    A shallow embedding of the Go package [httpbackoff]
    (taskcluster/httpbackoff).  Two generations of [Retry] are embedded:

    - [Global.Retry], from [httpbackoff.go] (one of the unnamed source files
      holds the same function): the package-level function that drives the
      scheduler behind the package variable [BackOffSettings];
    - [Method.Retry], from the method-based source file: the receiver is an
      [*ExponentialBackOff] and the loop runs on a private copy of it.

    The Go code is imperative: a closure assigns the variables of the
    enclosing function, the scheduler is reached through a pointer, the
    operation talks to the network.  All of this is threaded through one
    explicit machine state by a small state-and-failure monad. *)

From Stdlib Require Import ZArith QArith String DecimalString List Sorted Lia.
From stdpp Require Import gmap strings.

#[local] Open Scope Z_scope.

(** ** Results of running Go code *)

(** A Go call returns, panics (nil dereference), or - in the embedding of an
    unbounded [for] loop - uses up the fuel it was given. *)
Inductive result (A : Type) : Type :=
| Ok (a : A)
| Panic
| OutOfFuel.

Arguments Ok {A} a.
Arguments Panic {A}.
Arguments OutOfFuel {A}.

(** Computations over a state [St]. *)
Definition M (St A : Type) : Type := St -> result A * St.

Definition ret {St A} (a : A) : M St A := fun s => (Ok a, s).

Definition bind {St A B} (c : M St A) (k : A -> M St B) : M St B :=
  fun s =>
    match c s with
    | (Ok a, s') => k a s'
    | (Panic, s') => (Panic, s')
    | (OutOfFuel, s') => (OutOfFuel, s')
    end.

Definition panic {St A} : M St A := fun s => (Panic, s).
Definition out_of_fuel {St A} : M St A := fun s => (OutOfFuel, s).
Definition gets {St A} (f : St -> A) : M St A := fun s => (Ok (f s), s).
Definition modify {St} (f : St -> St) : M St unit := fun s => (Ok tt, f s).

Notation "'let!' x ':=' c 'in' k" := (bind c (fun x => k))
  (at level 10, x pattern, c at level 100, k at level 200).

(** ** net/http and the package's error type *)

(** The part of [http.Response] the package looks at. *)
Record Response : Type := { StatusCode : Z; Body : string }.

(** [type BadHttpResponseCode struct { HttpResponseCode int; Message string }] *)
Record BadHttpResponseCode : Type :=
  { HttpResponseCode : Z; Message : string }.

(** [func (err BadHttpResponseCode) Error() string] *)
Definition Error (err : BadHttpResponseCode) : string := Message err.

(** Go's [error] interface holds a value of some dynamic type.  Two dynamic
    types matter here: the package's own [BadHttpResponseCode], and whatever
    the transport returned (kept as its message).  [nil] is [None] of
    [option error]. *)
Inductive error : Type :=
| TransportError (msg : string)
| BadCode (e : BadHttpResponseCode).

(** The type assertion [herr, ok := err.(BadHttpResponseCode)]. *)
Definition asBadHttpResponseCode (e : error) : option BadHttpResponseCode :=
  match e with
  | BadCode b => Some b
  | TransportError _ => None
  end.

(** [strconv.Itoa] *)
Definition Itoa (i : Z) : string := NilZero.string_of_int (Z.to_int i).

(** Go's [int], 64 bits wide: the result of an addition wraps around. *)
Definition int (x : Z) : Z := (x + 2 ^ 63) mod 2 ^ 64 - 2 ^ 63.

(** What one invocation of the caller's operation handed back. *)
Definition outcome : Type := option Response * option error.

(** ** The backoff scheduler *)

(** Modelled from the spec: [backoff.ExponentialBackOff] is declared in
    github.com/cenkalti/backoff, which is not among the sources.  The fields
    are those of section 3 (BackoffConfig): durations are nanosecond counts,
    the two factors are rationals, [startTime] is unset until first use. *)
Record ExponentialBackOff : Type := {
  InitialInterval : Z;
  RandomizationFactor : Q;
  Multiplier : Q;
  MaxInterval : Z;
  MaxElapsedTime : Z;
  currentInterval : Z;
  startTime : option Z
}.

Definition set_running (cur : Z) (start : option Z) (b : ExponentialBackOff)
  : ExponentialBackOff :=
  {| InitialInterval := InitialInterval b;
     RandomizationFactor := RandomizationFactor b;
     Multiplier := Multiplier b;
     MaxInterval := MaxInterval b;
     MaxElapsedTime := MaxElapsedTime b;
     currentInterval := cur;
     startTime := start |}.

(** A rational cut down to a duration, towards zero as Go's conversion does. *)
Definition truncate (q : Q) : Z := Z.quot (Qnum q) (Zpos (Qden q)).

(** Modelled from the spec: section 4.1, "Reset() clears startTime and
    restores currentInterval to initialInterval". *)
Definition reset (b : ExponentialBackOff) : ExponentialBackOff :=
  set_running (InitialInterval b) None b.

(** Modelled from the spec: section 4.1, the algorithm of [NextBackOff].
    [now] is the clock reading and [u], between -1 and 1, the uniform draw
    that places the wait within [cur - cur*rf, cur + cur*rf].  [None] is
    STOP. *)
Definition nextBackOff (b : ExponentialBackOff) (now : Z) (u : Q)
  : option Z * ExponentialBackOff :=
  let start := match startTime b with Some s => s | None => now end in
  if negb (MaxElapsedTime b =? 0) && (MaxElapsedTime b <? now - start)
  then (None, set_running (currentInterval b) (Some start) b)
  else
    let cur := Z.min (currentInterval b) (MaxInterval b) in
    let randomized :=
      cur + truncate (u * RandomizationFactor b * inject_Z cur) in
    let next :=
      Z.min (truncate (inject_Z cur * Multiplier b)) (MaxInterval b) in
    (Some randomized, set_running next (Some start) b).

(** Pointers to schedulers are addresses of a heap; an address without a
    cell plays the nil pointer. *)
Abbreviation loc := positive.

(** Everything the scheduler side of a run can touch: the heap of scheduler
    values, the clock and the random source (two oracles, read in order), and
    the waits slept so far. *)
Record sched : Type := {
  heap : gmap loc ExponentialBackOff;
  clock : nat -> Z;
  ticks : nat;
  rand : nat -> Q;
  draws : nat;
  slept : list Z
}.

Definition set_heap (h : gmap loc ExponentialBackOff) (s : sched) : sched :=
  {| heap := h; clock := clock s; ticks := ticks s;
     rand := rand s; draws := draws s; slept := slept s |}.

Definition load (p : loc) : M sched ExponentialBackOff :=
  fun s => match heap s !! p with
           | Some b => (Ok b, s)
           | None => (Panic, s)
           end.

Definition store (p : loc) (b : ExponentialBackOff) : M sched unit :=
  modify (fun s => set_heap (<[p := b]> (heap s)) s).

(** [b.Clock.Now()] *)
Definition Now : M sched Z :=
  fun s => (Ok (clock s (ticks s)),
            {| heap := heap s; clock := clock s; ticks := S (ticks s);
               rand := rand s; draws := draws s; slept := slept s |}).

(** [rand.Float64()], rescaled to a draw between -1 and 1. *)
Definition Draw : M sched Q :=
  fun s => (Ok (rand s (draws s)),
            {| heap := heap s; clock := clock s; ticks := ticks s;
               rand := rand s; draws := S (draws s); slept := slept s |}).

(** [time.Sleep(d)]: the wait is recorded. *)
Definition Sleep (d : Z) : M sched unit :=
  modify (fun s =>
            {| heap := heap s; clock := clock s; ticks := ticks s;
               rand := rand s; draws := draws s; slept := slept s ++ [d] |}).

(** Modelled from the spec: the interface [backoff.BackOff] of the same
    library, by the contract of section 4.1: [Reset()], and [NextBackOff()]
    that answers a duration or STOP ([None]). *)
Class BackOff (B : Type) : Type := {
  Reset : B -> M sched unit;
  NextBackOff : B -> M sched (option Z)
}.

(** Modelled from the spec: [*ExponentialBackOff] implements [BackOff];
    its methods read and write the scheduler behind the pointer, and
    [NextBackOff] reads the clock and the random source once each. *)
#[export] Instance ExponentialBackOff_ptr : BackOff loc := {
  Reset p := let! b := load p in store p (reset b);
  NextBackOff p :=
    let! b := load p in
    let! now := Now in
    let! u := Draw in
    let! _ := store p (snd (nextBackOff b now u)) in
    ret (fst (nextBackOff b now u))
}.

(** The scheduler side once [NextBackOff] has run on the scheduler [b]
    behind [p]. *)
Definition after_next (p : loc) (b : ExponentialBackOff) (s : sched) : sched :=
  {| heap := <[p := snd (nextBackOff b (clock s (ticks s)) (rand s (draws s)))]>
               (heap s);
     clock := clock s; ticks := S (ticks s);
     rand := rand s; draws := S (draws s); slept := slept s |}.

(** ** The machine a retry sequence runs on *)

(** Besides the scheduler side there is the outside world [W] the caller's
    operation acts on, the log of what every invocation of the operation
    returned (ghost state: the code keeps no such log, the theorems count
    invocations with it), and the local variables [L] of the running [Retry],
    which its closure assigns. *)
Record machine (W Out L : Type) : Type := {
  scheduler : sched;
  world : W;
  calls : list Out;
  locals : L
}.

Arguments scheduler {W Out L} _.
Arguments world {W Out L} _.
Arguments calls {W Out L} _.
Arguments locals {W Out L} _.

Section Machine.
Context {W Out L : Type}.

(** Scheduler code run on the machine. *)
Definition on_sched {A} (c : M sched A) : M (machine W Out L) A :=
  fun m =>
    let (r, s) := c (scheduler m) in
    (r, {| scheduler := s; world := world m;
           calls := calls m; locals := locals m |}).

(** One invocation of the caller's operation: the world moves on and the
    outcome is logged. *)
Definition invoke (httpCall : W -> Out * W) : M (machine W Out L) Out :=
  fun m =>
    let (o, w) := httpCall (world m) in
    (Ok o, {| scheduler := scheduler m; world := w;
              calls := calls m ++ [o]; locals := locals m |}).

Definition get_locals : M (machine W Out L) L := gets locals.

Definition update_locals (f : L -> L) : M (machine W Out L) unit :=
  modify (fun m => {| scheduler := scheduler m; world := world m;
                      calls := calls m; locals := f (locals m) |}).

(** [p.f] on a pointer [p]: nil panics. *)
Definition deref {A} (p : option A) : M (machine W Out L) A :=
  match p with
  | Some a => ret a
  | None => panic
  end.
End Machine.

(** ** backoff.RetryNotify *)

Section RetryNotify.
Context {W Out L B : Type} `{BackOff B}.

Variable operation : M (machine W Out L) (option error).
Variable b : B.
Variable notify : error -> Z -> M (machine W Out L) unit.

(** Modelled from the spec: the loop of [backoff.RetryNotify]
    (github.com/cenkalti/backoff, not among the sources), as section 4.2
    steps 4 and 5 give it: a nil error ends the loop; otherwise the
    scheduler is asked for the next wait, STOP ends the loop with the
    error of the last attempt, and a wait is notified, slept, and followed
    by the next attempt.  [fuel] bounds the number of attempts. *)
Fixpoint retry_loop (fuel : nat) : M (machine W Out L) (option error) :=
  match fuel with
  | O => out_of_fuel
  | S fuel' =>
      let! err := operation in
      match err with
      | None => ret None
      | Some e =>
          let! next := on_sched (NextBackOff b) in
          match next with
          | None => ret (Some e)
          | Some wait =>
              let! _ := notify e wait in
              let! _ := on_sched (Sleep wait) in
              retry_loop fuel'
          end
      end
  end.

(** Modelled from the spec: section 3, the running state is reset at the
    beginning of each retry sequence. *)
Definition RetryNotify (fuel : nat) : M (machine W Out L) (option error) :=
  let! _ := on_sched (Reset b) in
  retry_loop fuel.
End RetryNotify.

(** ** The package-level Retry of httpbackoff.go *)

Module Global.

(** The variables of [Retry] that its closure [doHttpCall] captures. *)
Record frame : Type := {
  response : option Response;
  err : option error;
  attempts : Z
}.

Section Retry.
Context {W : Type}.

(** The package variable [BackOffSettings *backoff.ExponentialBackOff]. *)
Variable BackOffSettings : loc.

(** The caller's operation, [func() (resp *http.Response, err error)],
    acting on the outside world. *)
Variable httpCall : W -> outcome * W.

Definition intermittent (respCode : Z) : error :=
  BadCode {| HttpResponseCode := respCode;
             Message := "(Intermittent) HTTP response code " +:+ Itoa respCode |}.

Definition permanent (respCode : Z) : error :=
  BadCode {| HttpResponseCode := respCode;
             Message := "(Permanent) HTTP response code " +:+ Itoa respCode |}.

(** The closure [doHttpCall]. *)
Definition doHttpCall : M (machine W outcome frame) (option error) :=
  let! o := invoke httpCall in
  let! _ := update_locals (fun f =>
              {| response := fst o; err := snd o; attempts := attempts f |}) in
  let! _ := update_locals (fun f =>
              {| response := response f; err := err f;
                 attempts := int (attempts f + 1) |}) in
  let! f := get_locals in
  match err f with
  | Some e => ret (Some e)
  | None =>
      let! r := deref (response f) in
      let respCode := StatusCode r in
      if Z.quot respCode 100 =? 5
      then ret (Some (intermittent respCode))
      else ret None
  end.

(** [debug("Error: %s", err)]: logging only. *)
Definition debug (e : error) (wait : Z) : M (machine W outcome frame) unit :=
  ret tt.

(** [func Retry(httpCall)], returning response, attempts and error *)
Definition Retry (fuel : nat)
  : M (machine W outcome frame) (option Response * Z * option error) :=
  let! _ := update_locals (fun _ =>
              {| response := None; err := None; attempts := 0 |}) in
  let! e := RetryNotify doHttpCall BackOffSettings debug fuel in
  let! _ := update_locals (fun f =>
              {| response := response f; err := e; attempts := attempts f |}) in
  let! f := get_locals in
  match err f with
  | Some _ => ret (response f, attempts f, err f)
  | None =>
      let! r := deref (response f) in
      let respCode := StatusCode r in
      let! _ := if negb (Z.quot respCode 100 =? 2)
                then update_locals (fun f =>
                       {| response := response f;
                          err := Some (permanent respCode);
                          attempts := attempts f |})
                else ret tt in
      let! f := get_locals in
      ret (response f, attempts f, err f)
  end.
End Retry.

(** What [doHttpCall] returns to the retry loop for an outcome of the
    operation: the error to retry on, [None] to end the loop, or the panic
    of reading [response.StatusCode] through a nil pointer. *)
Definition classify (o : outcome) : result (option error) :=
  match snd o with
  | Some e => Ok (Some e)
  | None =>
      match fst o with
      | None => Panic
      | Some r =>
          if Z.quot (StatusCode r) 100 =? 5
          then Ok (Some (intermittent (StatusCode r)))
          else Ok None
      end
  end.

(** What [Retry] returns as its error when the last outcome of the
    operation is [o]. *)
Definition verdict (o : outcome) : result (option error) :=
  match snd o with
  | Some e => Ok (Some e)
  | None =>
      match fst o with
      | None => Panic
      | Some r =>
          if Z.quot (StatusCode r) 100 =? 5
          then Ok (Some (intermittent (StatusCode r)))
          else if Z.quot (StatusCode r) 100 =? 2 then Ok None
          else Ok (Some (permanent (StatusCode r)))
      end
  end.

(** One [attempts += 1]. *)
Definition incr (attempts : Z) : Z := int (attempts + 1).

(** The machine once the operation has returned [o], leaving the world in
    [w], and the closure has assigned its variables. *)
Definition after_call {W} (o : outcome) (w : W) (m : machine W outcome frame)
  : machine W outcome frame :=
  {| scheduler := scheduler m; world := w; calls := calls m ++ [o];
     locals := {| response := fst o; err := snd o;
                  attempts := incr (attempts (locals m)) |} |}.

(** The machine on which the loop of [Retry] starts: the locals are
    initialised and the scheduler behind [p], found to be [b], is reset. *)
Definition started {W} (p : loc) (b : ExponentialBackOff)
    (m : machine W outcome frame) : machine W outcome frame :=
  {| scheduler :=
       set_heap (<[p := reset b]> (heap (scheduler m))) (scheduler m);
     world := world m; calls := calls m;
     locals := {| response := None; err := None; attempts := 0 |} |}.

(** The machine with the scheduler side replaced. *)
Definition with_sched {W} (s : sched) (m : machine W outcome frame)
  : machine W outcome frame :=
  {| scheduler := s; world := world m; calls := calls m; locals := locals m |}.

(** The machine after an attempt that calls for a retry, the answer of the
    scheduler [b] behind [p], and the sleep of [wait]. *)
Definition after_wait {W} (p : loc) (b : ExponentialBackOff) (wait : Z)
    (o : outcome) (w : W) (m : machine W outcome frame)
  : machine W outcome frame :=
  let s := after_next p b (scheduler m) in
  with_sched
    {| heap := heap s; clock := clock s; ticks := ticks s;
       rand := rand s; draws := draws s; slept := slept s ++ [wait] |}
    (after_call o w m).

(** The outcome made the loop go on. *)
Definition retried (o : outcome) : Prop :=
  exists e, classify o = Ok (Some e).

End Global.


(** ** The method-based Retry *)

Module Method.

(** The operation now separates the errors to retry on from the permanent
    ones: [func() (resp *http.Response, tempError error, permError error)]. *)
Definition outcome3 : Type := option Response * option error * option error.

Record frame : Type := {
  response : option Response;
  tempError : option error;
  permError : option error;
  attempts : Z
}.

Definition newline : string := String (Ascii.ascii_of_nat 10) EmptyString.

(** [b := backoff.ExponentialBackOff( *backOffSettings)]: the value behind
    the receiver is copied into a new variable, whose address is what the
    retry loop receives. *)
Definition copy (p : loc) : M sched loc :=
  let! v := load p in
  let! q := gets (fun s => fresh (dom (heap s))) in
  let! _ := store q v in
  ret q.

Section Retry.
Context {W : Type}.

(** [httputil.DumpResponse(response, true)], as a function of the
    response: the dump and the read error. *)
Variable DumpResponse : Response -> string * option error.

(** The receiver, [backOffSettings *ExponentialBackOff]. *)
Variable backOffSettings : loc.

Variable httpCall : W -> outcome3 * W.

Definition doHttpCall : M (machine W outcome3 frame) (option error) :=
  let! o := invoke httpCall in
  let! _ := update_locals (fun f =>
              {| response := fst (fst o); tempError := snd (fst o);
                 permError := snd o; attempts := attempts f |}) in
  let! _ := update_locals (fun f =>
              {| response := response f; tempError := tempError f;
                 permError := permError f;
                 attempts := int (attempts f + 1) |}) in
  let! f := get_locals in
  match tempError f with
  | Some e => ret (Some e)
  | None =>
      match permError f with
      | Some _ => ret None
      | None =>
          let! r := deref (response f) in
          let (raw, readErr) := DumpResponse r in
          let out :=
            match readErr with None => raw | Some _ => EmptyString end in
          let respCode := StatusCode r in
          if Z.quot respCode 100 =? 5
          then ret (Some (BadCode
                 {| HttpResponseCode := respCode;
                    Message := "(Intermittent) HTTP response code "
                               +:+ Itoa respCode +:+ newline +:+ out |}))
          else if negb (Z.quot respCode 100 =? 2)
          then
            let! _ := update_locals (fun f =>
              {| response := response f; tempError := tempError f;
                 permError := Some (BadCode
                   {| HttpResponseCode := respCode;
                      Message := "(Permanent) HTTP response code "
                                 +:+ Itoa respCode +:+ newline +:+ out |});
                 attempts := attempts f |}) in
            ret None
          else ret None
      end
  end.

(** [log.Printf("Error: %s", err)]: logging only. *)
Definition logError (e : error) (wait : Z)
  : M (machine W outcome3 frame) unit := ret tt.

(** [func (backOffSettings *ExponentialBackOff) Retry(httpCall)].  What
    [backoff.RetryNotify] returns is dropped, as in the source. *)
Definition Retry (fuel : nat)
  : M (machine W outcome3 frame) (option Response * Z * option error) :=
  let! _ := update_locals (fun _ =>
              {| response := None; tempError := None;
                 permError := None; attempts := 0 |}) in
  let! b := on_sched (copy backOffSettings) in
  let! _ := RetryNotify doHttpCall b logError fuel in
  let! f := get_locals in
  match permError f with
  | Some e => ret (response f, attempts f, Some e)
  | None =>
      match tempError f with
      | Some e => ret (response f, attempts f, Some e)
      | None => ret (response f, attempts f, None)
      end
  end.
End Retry.

End Method.

(** ** Successive waits of one scheduler *)

(** The answers of successive [NextBackOff] calls, one per pair of a clock
    reading and a draw. *)
Fixpoint backoffs (b : ExponentialBackOff) (inputs : list (Z * Q))
  : list (option Z) :=
  match inputs with
  | [] => []
  | (now, u) :: rest =>
      fst (nextBackOff b now u) :: backoffs (snd (nextBackOff b now u)) rest
  end.

(** The waits among them: every answer but STOP. *)
Definition waits (b : ExponentialBackOff) (inputs : list (Z * Q)) : list Z :=
  omap id (backoffs b inputs).

(** ** Describing runs *)

(** The operation, invoked again and again from the world [w], returns the
    outcomes [os] in this order and leaves the world [w']. *)
Fixpoint plays {W Out} (httpCall : W -> Out * W) (w : W) (os : list Out)
    (w' : W) : Prop :=
  match os with
  | [] => w' = w
  | o :: os' => exists w1, httpCall w = (o, w1) /\ plays httpCall w1 os' w'
  end.

(** A budget generous enough for the next [n] calls of [NextBackOff], the
    first of which reads the clock [clk] at [t]: elapsed time is not limited,
    or none of these readings is more than [MaxElapsedTime] after the start
    of the sequence (the first of them, if the scheduler has not started). *)
Definition generous (b : ExponentialBackOff) (clk : nat -> Z) (t n : nat)
  : Prop :=
  MaxElapsedTime b = 0
  \/ forall k : nat,
       (k < n)%nat ->
       clk (t + k)%nat - match startTime b with Some s => s | None => clk t end
       <= MaxElapsedTime b.

(** ** The test bench of test_setup_test.go *)

Module TestSetup.

(** [MyHandler.QueuedResponses], as the status codes still queued. *)
Definition QueuedResponses : Type := list Z.

Definition body (statusCode : Z) : string :=
  "This is a *fake* HTTP " +:+ Itoa statusCode
    +:+ " response body for testing purposes".

(** [http.Get] against the stub server: [ServeHTTP] answers with the head
    of the queue, and with an empty 200 once the queue is empty. *)
Definition httpGet (q : QueuedResponses) : outcome * QueuedResponses :=
  match q with
  | [] => ((Some {| StatusCode := 200; Body := EmptyString |}, None), [])
  | statusCode :: q' =>
      ((Some {| StatusCode := statusCode; Body := body statusCode |}, None), q')
  end.

(** [http.Get] against a port nobody listens on. *)
Definition httpGetBadPort (w : unit) : outcome * unit :=
  ((None, Some (TransportError "connection refused")), w).

(** An operation that hands back neither a response nor an error. *)
Definition returnNothing (w : unit) : outcome * unit := ((None, None), w).

Definition ms : Z := 1000000.

(** The settings of [TestMain]. *)
Definition settings : ExponentialBackOff :=
  {| InitialInterval := 1 * ms;
     RandomizationFactor := 2 # 10;
     Multiplier := 12 # 10;
     MaxInterval := 5 * ms;
     MaxElapsedTime := 20 * ms;
     currentInterval := 0;
     startTime := None |}.

(** A machine whose only scheduler, at address 1, is [b]; every clock
    reading is [step] later than the one before. *)
Definition bench {W} (b : ExponentialBackOff) (step : Z) (w : W)
  : machine W outcome Global.frame :=
  {| scheduler :=
       {| heap := {[ 1%positive := b ]};
          clock := fun n => Z.of_nat n * step; ticks := 0;
          rand := fun _ => 1 # 2; draws := 0; slept := [] |};
     world := w; calls := [];
     locals := {| Global.response := None; Global.err := None;
                  Global.attempts := 0 |} |}.

(** The same scheduler without jitter. *)
Definition steady : ExponentialBackOff :=
  {| InitialInterval := 1 * ms;
     RandomizationFactor := 0;
     Multiplier := 12 # 10;
     MaxInterval := 5 * ms;
     MaxElapsedTime := 20 * ms;
     currentInterval := 0;
     startTime := None |}.

(** The method-based variant of the bench: [Get] of the receiver hands
    every error back as one to retry on. *)
Definition httpGet3 (q : QueuedResponses) : Method.outcome3 * QueuedResponses :=
  let (o, q') := httpGet q in ((fst o, snd o, None), q').

Definition Dump (r : Response) : string * option error := (Body r, None).

Definition bench3 (b : ExponentialBackOff) (step : Z) (q : QueuedResponses)
  : machine QueuedResponses Method.outcome3 Method.frame :=
  {| scheduler :=
       {| heap := {[ 1%positive := b ]};
          clock := fun n => Z.of_nat n * step; ticks := 0;
          rand := fun _ => 1 # 2; draws := 0; slept := [] |};
     world := q; calls := [];
     locals := {| Method.response := None; Method.tempError := None;
                  Method.permError := None; Method.attempts := 0 |} |}.

(** Runs of the package-level [Retry] on the bench. *)
Definition run_500_200 :=
  Global.Retry 1%positive httpGet 10 (bench settings ms [500; 200]).

Definition run_404 :=
  Global.Retry 1%positive httpGet 10 (bench settings ms [404]).

Definition run_500s :=
  Global.Retry 1%positive httpGet 10
    (bench settings (6 * ms) [500; 500; 500; 500; 500]).

Definition run_nothing :=
  Global.Retry 1%positive returnNothing 10 (bench settings ms tt).

(** Twelve clock readings, 1ms apart, each with a draw. *)
Definition readings : list (Z * Q) :=
  map (fun n => (Z.of_nat n * ms, 1 # 2)) (seq 0 12).

End TestSetup.

(** ** One attempt, for either generation *)

(** The machine once an invocation of the operation has returned [o],
    leaving the world [w], and the closure has brought its variables up to
    date by [upd]. *)
Definition called {W Out L} (upd : Out -> L -> L) (o : Out) (w : W)
    (m : machine W Out L) : machine W Out L :=
  {| scheduler := scheduler m; world := w; calls := calls m ++ [o];
     locals := upd o (locals m) |}.

(** The machine with another scheduler side. *)
Definition put_sched {W Out L} (s : sched) (m : machine W Out L)
  : machine W Out L :=
  {| scheduler := s; world := world m; calls := calls m; locals := locals m |}.

(** The scheduler side with one more wait slept. *)
Definition slept_on (wait : Z) (s : sched) : sched :=
  {| heap := heap s; clock := clock s; ticks := ticks s;
     rand := rand s; draws := draws s; slept := slept s ++ [wait] |}.

(** The outcome makes a closure that classifies by [cls] go on. *)
Definition goes_on {Out} (cls : Out -> result (option error)) (o : Out) : Prop :=
  exists e, cls o = Ok (Some e).

(** Two schedulers of the same settings; the running state may differ. *)
Definition same_settings (b c : ExponentialBackOff) : Prop :=
  InitialInterval c = InitialInterval b
  /\ RandomizationFactor c = RandomizationFactor b
  /\ Multiplier c = Multiplier b
  /\ MaxInterval c = MaxInterval b
  /\ MaxElapsedTime c = MaxElapsedTime b.

(** What the closure of the package-level [Retry] assigns on outcome [o]. *)
Definition Global_assigned (o : outcome) (f : Global.frame) : Global.frame :=
  {| Global.response := fst o; Global.err := snd o;
     Global.attempts := Global.incr (Global.attempts f) |}.

(** The outcome calls for a retry in the package-level [Retry]: an error of
    the operation, or a response of a status in [500,600). *)
Definition retryable (o : outcome) : Prop :=
  (exists x, snd o = Some x)
  \/ (snd o = None /\ exists r, fst o = Some r /\ 500 <= StatusCode r < 600).

(** ** The closure of the method-based Retry, outcome by outcome *)

Module MethodRun.

Section Dump.
Variable DumpResponse : Response -> string * option error.

(** [out]: the dump of the response, empty when the dump failed. *)
Definition out (r : Response) : string :=
  match snd (DumpResponse r) with
  | None => fst (DumpResponse r)
  | Some _ => EmptyString
  end.

Definition intermittent (r : Response) : error :=
  BadCode {| HttpResponseCode := StatusCode r;
             Message := "(Intermittent) HTTP response code "
                        +:+ Itoa (StatusCode r) +:+ Method.newline +:+ out r |}.

Definition permanent (r : Response) : error :=
  BadCode {| HttpResponseCode := StatusCode r;
             Message := "(Permanent) HTTP response code "
                        +:+ Itoa (StatusCode r) +:+ Method.newline +:+ out r |}.

(** What [doHttpCall] returns to the retry loop. *)
Definition classify (o : Method.outcome3) : result (option error) :=
  match snd (fst o) with
  | Some e => Ok (Some e)
  | None =>
      match snd o with
      | Some _ => Ok None
      | None =>
          match fst (fst o) with
          | None => Panic
          | Some r =>
              if Z.quot (StatusCode r) 100 =? 5
              then Ok (Some (intermittent r))
              else Ok None
          end
      end
  end.

(** The [permError] the closure leaves behind: that of the operation, or
    the one it makes up for a status that is neither 5xx nor 2xx. *)
Definition permError_after (o : Method.outcome3) : option error :=
  match snd (fst o), snd o, fst (fst o) with
  | None, None, Some r =>
      if Z.quot (StatusCode r) 100 =? 5 then None
      else if Z.quot (StatusCode r) 100 =? 2 then None
      else Some (permanent r)
  | _, pe, _ => pe
  end.

Definition assigned (o : Method.outcome3) (f : Method.frame) : Method.frame :=
  {| Method.response := fst (fst o);
     Method.tempError := snd (fst o);
     Method.permError := permError_after o;
     Method.attempts := Global.incr (Method.attempts f) |}.

(** The error [Retry] returns when the last outcome is [o]: the final
    [switch]. *)
Definition verdict (o : Method.outcome3) : option error :=
  match permError_after o with
  | Some e => Some e
  | None => snd (fst o)
  end.
End Dump.

(** The machine on which the loop of the method-based [Retry] starts: the
    locals are initialised, and the copy [c] of the receiver, reset, sits in
    a new cell. *)
Definition started {W} (c : ExponentialBackOff)
    (m : machine W Method.outcome3 Method.frame)
  : machine W Method.outcome3 Method.frame :=
  {| scheduler :=
       set_heap (<[fresh (dom (heap (scheduler m))) := reset c]>
                   (<[fresh (dom (heap (scheduler m))) := c]>
                      (heap (scheduler m))))
         (scheduler m);
     world := world m; calls := calls m;
     locals := {| Method.response := None; Method.tempError := None;
                  Method.permError := None; Method.attempts := 0 |} |}.

End MethodRun.

(** What [Retry] does once [backoff.RetryNotify] has returned [e]. *)
Definition Global_after_loop {W} (e : option error)
  : M (machine W outcome Global.frame) (option Response * Z * option error) :=
  let! _ := update_locals (fun f =>
              {| Global.response := Global.response f; Global.err := e;
                 Global.attempts := Global.attempts f |}) in
  let! f := get_locals in
  match Global.err f with
  | Some _ => ret (Global.response f, Global.attempts f, Global.err f)
  | None =>
      let! r := deref (Global.response f) in
      let respCode := StatusCode r in
      let! _ := if negb (Z.quot respCode 100 =? 2)
                then update_locals (fun f =>
                       {| Global.response := Global.response f;
                          Global.err := Some (Global.permanent respCode);
                          Global.attempts := Global.attempts f |})
                else ret tt in
      let! f := get_locals in
      ret (Global.response f, Global.attempts f, Global.err f)
  end.

(** What the method-based [Retry] does once [backoff.RetryNotify] has
    returned: the final [switch]. *)
Definition Method_after_loop {W} (_ : option error)
  : M (machine W Method.outcome3 Method.frame)
      (option Response * Z * option error) :=
  let! f := get_locals in
  match Method.permError f with
  | Some e => ret (Method.response f, Method.attempts f, Some e)
  | None =>
      match Method.tempError f with
      | Some e => ret (Method.response f, Method.attempts f, Some e)
      | None => ret (Method.response f, Method.attempts f, None)
      end
  end.

(** The outcome calls for a retry in the method-based [Retry]: an error to
    retry on, or - without any error - a response of a status in
    [500,600). *)
Definition retryable3 (o : Method.outcome3) : Prop :=
  (exists x, snd (fst o) = Some x)
  \/ (snd (fst o) = None /\ snd o = None
      /\ exists r, fst (fst o) = Some r /\ 500 <= StatusCode r < 600).

(** ** Scripted operations *)

(** An operation that hands back the outcomes of a script one by one, and
    [dflt] once the script is used up. *)
Definition replay {Out} (dflt : Out) (w : list Out) : Out * list Out :=
  match w with
  | [] => (dflt, [])
  | o :: w' => (o, w')
  end.

Definition refused : outcome :=
  (None, Some (TransportError "connection refused")).

Definition refused3 : Method.outcome3 :=
  (None, Some (TransportError "connection refused"), None).

(** The bench for scripts of the package-level [Retry]. *)
Definition script_bench (b : ExponentialBackOff) (step : Z) (w : list outcome)
  : machine (list outcome) outcome Global.frame :=
  TestSetup.bench b step w.

(** The bench for scripts of the method-based [Retry]. *)
Definition script_bench3 (b : ExponentialBackOff) (step : Z)
    (w : list Method.outcome3)
  : machine (list Method.outcome3) Method.outcome3 Method.frame :=
  {| scheduler :=
       {| heap := {[ 1%positive := b ]};
          clock := fun n => Z.of_nat n * step; ticks := 0;
          rand := fun _ => 1 # 2; draws := 0; slept := [] |};
     world := w; calls := [];
     locals := {| Method.response := None; Method.tempError := None;
                  Method.permError := None; Method.attempts := 0 |} |}.

(** Two final responses, and a script that leads to one of them: a refused
    connection, a 503, then the response. *)
Definition found : Response := {| StatusCode := 200; Body := "ok" |}.

Definition missing : Response := {| StatusCode := 404; Body := "not found" |}.

Definition busy : Response := {| StatusCode := 503; Body := "busy" |}.

Definition script (final : Response) : list outcome :=
  [refused; (Some busy, None); (Some final, None)].

Definition script3 (final : Response) : list Method.outcome3 :=
  [refused3; (Some busy, None, None); (Some final, None, None)].

(** An operation that succeeds every time. *)
Definition httpGetOK (w : unit) : outcome * unit := ((Some found, None), w).

(** A permanent error of the operation, as a malformed request gives. *)
Definition malformed : Method.outcome3 :=
  (None, None, Some (TransportError "unsupported protocol scheme")).

Definition run_script :=
  Global.Retry 1%positive (replay refused) 10
    (script_bench TestSetup.settings TestSetup.ms (script found)).

Definition run_script3 :=
  Method.Retry TestSetup.Dump 1%positive (replay refused3) 10
    (script_bench3 TestSetup.settings TestSetup.ms (script3 missing)).

Definition run_nothing3 :=
  Method.Retry TestSetup.Dump 1%positive (replay refused3) 10
    (script_bench3 TestSetup.settings TestSetup.ms [refused3; (None, None, None)]).

(** ** A budget that runs out *)

(** The scheduler [b] grants a wait at each of its next [k] calls of
    [NextBackOff] - the first of them reads the clock [clk] at [t] and the
    draw [rnd] at [d] - and answers STOP at the call after them. *)
Fixpoint stops_after (k : nat) (b : ExponentialBackOff) (clk : nat -> Z)
    (t : nat) (rnd : nat -> Q) (d : nat) : bool :=
  match k with
  | O =>
      match fst (nextBackOff b (clk t) (rnd d)) with
      | None => true
      | Some _ => false
      end
  | S k' =>
      match fst (nextBackOff b (clk t) (rnd d)) with
      | None => false
      | Some _ =>
          stops_after k' (snd (nextBackOff b (clk t) (rnd d))) clk (S t) rnd (S d)
      end
  end.

(** Every attempt of [os] returned a response of a status in [500,600) and
    no error. *)
Definition all_5xx (os : list outcome) : Prop :=
  Forall (fun o => exists r : Response,
                     o = (Some r, None) /\ 500 <= StatusCode r < 600) os.

(** The settings of [TestMain] with a budget of -1ns: a [MaxElapsedTime]
    that is not zero and that any elapsed time exceeds. *)
Definition impatient : ExponentialBackOff :=
  {| InitialInterval := 1 * TestSetup.ms;
     RandomizationFactor := 2 # 10;
     Multiplier := 12 # 10;
     MaxInterval := 5 * TestSetup.ms;
     MaxElapsedTime := -1;
     currentInterval := 0;
     startTime := None |}.

(** ** The two generations side by side *)

(** An outcome of a package-level operation as the wrappers of the
    method-based generation hand it on: [return resp, err, nil], every error
    being one to retry on. *)
Definition asOutcome3 (o : outcome) : Method.outcome3 := (fst o, snd o, None).

Definition asTempError {W} (httpCall : W -> outcome * W)
  : W -> Method.outcome3 * W :=
  fun w => let (o, w') := httpCall w in (asOutcome3 o, w').

(** A machine of each generation, in step: the same world, the same clock
    and draws at the same reading, and the same scheduler behind [p] on the
    one and behind [q] on the other. *)
Definition in_step {W} (p q : loc) (m1 : machine W outcome Global.frame)
    (m2 : machine W Method.outcome3 Method.frame) : Prop :=
  world m2 = world m1
  /\ clock (scheduler m2) = clock (scheduler m1)
  /\ ticks (scheduler m2) = ticks (scheduler m1)
  /\ rand (scheduler m2) = rand (scheduler m1)
  /\ draws (scheduler m2) = draws (scheduler m1)
  /\ heap (scheduler m2) !! q = heap (scheduler m1) !! p.

(** ** The stub handler of test_setup_test.go *)

Module Handler.

Record HTTPResponse : Type := { body : string; statusCode : Z }.

Record MyHandler : Type := { QueuedResponses : list HTTPResponse }.

(** What a handler does to its [http.ResponseWriter], call by call. *)
Inductive write : Type :=
| WriteHeader (statusCode : Z)
| WriteString (s : string).

(** [ServeHTTP]: nothing is written when the queue is empty; else the head
    of the queue is taken off and its status and body are written. *)
Definition ServeHTTP (handler : MyHandler) (w : list write)
  : MyHandler * list write :=
  match QueuedResponses handler with
  | [] => (handler, w)
  | response :: rest =>
      ({| QueuedResponses := rest |},
       w ++ [WriteHeader (statusCode response); WriteString (body response)])
  end.

Definition QueueResponse (handler : MyHandler) (statusCode : Z) : MyHandler :=
  let body := "This is a *fake* HTTP " +:+ Itoa statusCode
              +:+ " response body for testing purposes" in
  {| QueuedResponses :=
       QueuedResponses handler ++ [{| body := body; statusCode := statusCode |}] |}.

Definition ClearResponseQueue (handler : MyHandler) : MyHandler :=
  {| QueuedResponses := [] |}.

Definition NewMyHandler : MyHandler := {| QueuedResponses := [] |}.

(** [n] requests served one after the other, each with a writer of its own:
    the handler left, and what each writer received. *)
Fixpoint serve (n : nat) (handler : MyHandler) : MyHandler * list (list write) :=
  match n with
  | O => (handler, [])
  | S n' =>
      let (h1, w) := ServeHTTP handler [] in
      let (h2, ws) := serve n' h1 in
      (h2, w :: ws)
  end.

(** The status codes [codes] queued in this order. *)
Definition queue (codes : list Z) (handler : MyHandler) : MyHandler :=
  fold_left QueueResponse codes handler.

(** The writes that answer a request with the queued response [r]. *)
Definition answer (r : HTTPResponse) : list write :=
  [WriteHeader (statusCode r); WriteString (body r)].

(** The response [QueueResponse] makes of a status code. *)
Definition fake (statusCode : Z) : HTTPResponse :=
  {| body := TestSetup.body statusCode; statusCode := statusCode |}.

End Handler.

(** * Properties *)

(** ** Status classes *)

Lemma quot100_class (s k : Z) :
  Z.quot s 100 = k <-> (0 <= s /\ 100 * k <= s < 100 * k + 100)
                       \/ (s <= 0 /\ 100 * k - 100 < s <= 100 * k).
Proof.
  pose proof (Z.quot_rem' s 100) as Hs.
  assert (0 <= s -> 0 <= Z.rem s 100 < 100)
    by (intros; apply Z.rem_bound_pos; lia).
  assert (s <= 0 -> -100 < Z.rem s 100 <= 0).
  { intros. pose proof (Z.rem_nonpos s 100).
    pose proof (Z.rem_bound_abs s 100). lia. }
  lia.
Qed.

Lemma quot100_2xx (s : Z) : Z.quot s 100 = 2 <-> 200 <= s < 300.
Proof. rewrite quot100_class. lia. Qed.

Lemma quot100_5xx (s : Z) : Z.quot s 100 = 5 <-> 500 <= s < 600.
Proof. rewrite quot100_class. lia. Qed.

(** ** The attempt counter *)

Lemma int_small (x : Z) : - 2 ^ 63 <= x < 2 ^ 63 -> int x = x.
Proof. intros Hx. unfold int. rewrite Z.mod_small; lia. Qed.

(** As long as fewer than 2^63 increments are made, the counter counts. *)
Lemma incr_counts (n : nat) :
  Z.of_nat n < 2 ^ 63 -> Nat.iter n Global.incr 0 = Z.of_nat n.
Proof.
  induction n as [|n IH]; intros Hn; [reflexivity|].
  rewrite Nat.iter_succ, IH by lia. unfold Global.incr.
  rewrite int_small; lia.
Qed.

(** ** The scheduler behind a pointer *)

Lemma Reset_ptr_run (p : loc) (s : sched) (b : ExponentialBackOff) :
  heap s !! p = Some b ->
  Reset p s = (Ok tt, set_heap (<[p := reset b]> (heap s)) s).
Proof. intros Hp. cbn. unfold bind, load. rewrite Hp. reflexivity. Qed.

Lemma Reset_ptr_nil (p : loc) (s : sched) :
  heap s !! p = None -> Reset p s = (Panic, s).
Proof. intros Hp. cbn. unfold bind, load. rewrite Hp. reflexivity. Qed.

Lemma NextBackOff_ptr_run (p : loc) (s : sched) (b : ExponentialBackOff) :
  heap s !! p = Some b ->
  NextBackOff p s =
    (Ok (fst (nextBackOff b (clock s (ticks s)) (rand s (draws s)))),
     after_next p b s).
Proof. intros Hp. cbn. unfold bind, load. rewrite Hp. reflexivity. Qed.

Lemma NextBackOff_ptr_nil (p : loc) (s : sched) :
  heap s !! p = None -> NextBackOff p s = (Panic, s).
Proof. intros Hp. cbn. unfold bind, load. rewrite Hp. reflexivity. Qed.

(** Scheduler code leaves the world, the call log and the locals alone. *)
Lemma on_sched_frame {W Out L A} (c : M sched A) (m m' : machine W Out L)
    (r : result A) :
  on_sched c m = (r, m') ->
  c (scheduler m) = (r, scheduler m')
  /\ world m' = world m /\ calls m' = calls m /\ locals m' = locals m.
Proof.
  unfold on_sched. destruct (c (scheduler m)) as [r0 s0].
  intros [= <- <-]. auto.
Qed.

(** One turn of the loop, for any scheduler. *)
Lemma retry_loop_S {W Out L B} `{BackOff B}
    (operation : M (machine W Out L) (option error)) (b : B)
    (notify : error -> Z -> M (machine W Out L) unit) (fuel : nat) :
  retry_loop operation b notify (S fuel) =
    (let! err := operation in
     match err with
     | None => ret None
     | Some e =>
         let! next := on_sched (NextBackOff b) in
         match next with
         | None => ret (Some e)
         | Some wait =>
             let! _ := notify e wait in
             let! _ := on_sched (Sleep wait) in
             retry_loop operation b notify fuel
         end
     end).
Proof. reflexivity. Qed.

(** Closes [exists m', _ /\ _ /\ _ /\ run = (r, m')]: the run decides [m'],
    the other conjuncts are then read off it. *)
Ltac pin_machine :=
  eexists; (split; [|split; [|split; [|reflexivity]]]); reflexivity.

(** A loop that ended without running out of fuel ends the same way on
    more fuel. *)
Lemma retry_loop_more_fuel {W Out L B} `{BackOff B}
    (operation : M (machine W Out L) (option error)) (b : B)
    (notify : error -> Z -> M (machine W Out L) unit) (fuel k : nat) :
  forall (m m' : machine W Out L) (r : result (option error)),
    retry_loop operation b notify fuel m = (r, m') ->
    r <> OutOfFuel ->
    retry_loop operation b notify (fuel + k) m = (r, m').
Proof.
  induction fuel as [|fuel IH]; intros m m' r Hrun Hr.
  - cbn in Hrun. injection Hrun as <- _. congruence.
  - change (S fuel + k)%nat with (S (fuel + k)).
    rewrite retry_loop_S in Hrun |- *.
    unfold bind at 1 in Hrun. unfold bind at 1.
    destruct (operation m) as [[[e|]| |] m1]; try exact Hrun.
    unfold bind at 1 in Hrun. unfold bind at 1.
    destruct (on_sched (NextBackOff b) m1) as [[[wait|]| |] m2];
      try exact Hrun.
    unfold bind at 1 in Hrun. unfold bind at 1.
    destruct (notify e wait m2) as [[[]| |] m3]; try exact Hrun.
    unfold bind at 1 in Hrun. unfold bind at 1.
    destruct (on_sched (Sleep wait) m3) as [[[]| |] m4]; try exact Hrun.
    exact (IH _ _ _ Hrun Hr).
Qed.

(** ** One attempt of the package-level Retry *)

Section GlobalAttempt.
Context {W : Type}.
Variable p : loc.
Variable httpCall : W -> outcome * W.

#[local] Abbreviation machine := (machine W outcome Global.frame).
#[local] Abbreviation loop :=
  (retry_loop (Global.doHttpCall httpCall) p Global.debug).

Lemma doHttpCall_run (m : machine) (o : outcome) (w : W) :
  httpCall (world m) = (o, w) ->
  Global.doHttpCall httpCall m = (Global.classify o, Global.after_call o w m).
Proof.
  intros Hcall. unfold Global.doHttpCall, bind, invoke. rewrite Hcall. cbn.
  unfold Global.classify, Global.after_call.
  destruct o as [[r|] [e|]]; cbn; try reflexivity.
  destruct (Z.quot (StatusCode r) 100 =? 5); reflexivity.
Qed.

(** The attempt ended the loop. *)
Lemma loop_done (fuel : nat) (m : machine) (o : outcome) (w : W) :
  httpCall (world m) = (o, w) ->
  Global.classify o = Ok None ->
  loop (S fuel) m = (Ok None, Global.after_call o w m).
Proof.
  intros Hcall Hc. rewrite retry_loop_S. unfold bind at 1.
  rewrite (doHttpCall_run _ _ _ Hcall), Hc. reflexivity.
Qed.

(** The attempt panicked. *)
Lemma loop_panic (fuel : nat) (m : machine) (o : outcome) (w : W) :
  httpCall (world m) = (o, w) ->
  Global.classify o = Panic ->
  loop (S fuel) m = (Panic, Global.after_call o w m).
Proof.
  intros Hcall Hc. rewrite retry_loop_S. unfold bind at 1.
  rewrite (doHttpCall_run _ _ _ Hcall), Hc. reflexivity.
Qed.

(** The attempt failed and the scheduler granted a wait. *)
Lemma loop_retry (fuel : nat) (m : machine) (o : outcome) (w : W) (e : error)
    (b : ExponentialBackOff) (wait : Z) :
  httpCall (world m) = (o, w) ->
  Global.classify o = Ok (Some e) ->
  heap (scheduler m) !! p = Some b ->
  fst (nextBackOff b (clock (scheduler m) (ticks (scheduler m)))
         (rand (scheduler m) (draws (scheduler m)))) = Some wait ->
  loop (S fuel) m = loop fuel (Global.after_wait p b wait o w m).
Proof.
  intros Hcall Hc Hp Hn. rewrite retry_loop_S. unfold bind at 1.
  rewrite (doHttpCall_run _ _ _ Hcall), Hc.
  unfold bind at 1, on_sched at 1.
  change (scheduler (Global.after_call o w m)) with (scheduler m).
  rewrite (NextBackOff_ptr_run _ _ _ Hp), Hn. reflexivity.
Qed.

(** The attempt failed and the scheduler answered STOP. *)
Lemma loop_stop (fuel : nat) (m : machine) (o : outcome) (w : W) (e : error)
    (b : ExponentialBackOff) :
  httpCall (world m) = (o, w) ->
  Global.classify o = Ok (Some e) ->
  heap (scheduler m) !! p = Some b ->
  fst (nextBackOff b (clock (scheduler m) (ticks (scheduler m)))
         (rand (scheduler m) (draws (scheduler m)))) = None ->
  loop (S fuel) m =
    (Ok (Some e),
     Global.with_sched (after_next p b (scheduler m))
       (Global.after_call o w m)).
Proof.
  intros Hcall Hc Hp Hn. rewrite retry_loop_S. unfold bind at 1.
  rewrite (doHttpCall_run _ _ _ Hcall), Hc.
  unfold bind at 1, on_sched at 1.
  change (scheduler (Global.after_call o w m)) with (scheduler m).
  rewrite (NextBackOff_ptr_run _ _ _ Hp), Hn. reflexivity.
Qed.

(** The attempt failed and the scheduler pointer is nil. *)
Lemma loop_nil (fuel : nat) (m : machine) (o : outcome) (w : W) (e : error) :
  httpCall (world m) = (o, w) ->
  Global.classify o = Ok (Some e) ->
  heap (scheduler m) !! p = None ->
  loop (S fuel) m = (Panic, Global.after_call o w m).
Proof.
  intros Hcall Hc Hp. rewrite retry_loop_S. unfold bind at 1.
  rewrite (doHttpCall_run _ _ _ Hcall), Hc.
  unfold bind at 1, on_sched at 1.
  change (scheduler (Global.after_call o w m)) with (scheduler m).
  rewrite (NextBackOff_ptr_nil _ _ Hp). destruct m as [s w0 c l]; reflexivity.
Qed.

Lemma classify_fuel (o : outcome) : Global.classify o <> OutOfFuel.
Proof.
  unfold Global.classify. destruct o as [[r|] [e|]]; cbn; try discriminate.
  destruct (Z.quot (StatusCode r) 100 =? 5); discriminate.
Qed.

(** Every run of the loop, whatever its end: the calls it made, the
    counter, the waits, and what the last call has to do with the result. *)
Lemma loop_run (fuel : nat) (m m' : machine)
    (r : result (option error)) :
  loop fuel m = (r, m') ->
  exists new : list outcome,
    calls m' = calls m ++ new
    /\ Global.attempts (locals m') =
         Nat.iter (length new) Global.incr (Global.attempts (locals m))
    /\ match r with
       | Ok e =>
           exists pre o,
             new = pre ++ [o] /\ Forall Global.retried pre
             /\ Global.classify o = Ok e
             /\ Global.response (locals m') = fst o
             /\ Global.err (locals m') = snd o
             /\ length (slept (scheduler m')) =
                  (length (slept (scheduler m)) + length pre)%nat
       | Panic =>
           exists pre o,
             new = pre ++ [o] /\ Forall Global.retried pre
             /\ (Global.classify o = Panic
                 \/ (Global.retried o /\ heap (scheduler m) !! p = None))
       | OutOfFuel => Forall Global.retried new /\ length new = fuel
       end.
Proof.
  revert m m' r. induction fuel as [|fuel IH]; intros m m' r Hrun.
  - cbn in Hrun. injection Hrun as <- <-. exists [].
    rewrite app_nil_r. cbn. repeat split; auto.
  - destruct (httpCall (world m)) as [o w] eqn:Hcall.
    destruct (Global.classify o) as [[e|]| |] eqn:Hc.
    + destruct (heap (scheduler m) !! p) as [b|] eqn:Hp.
      * destruct (fst (nextBackOff b (clock (scheduler m) (ticks (scheduler m)))
                         (rand (scheduler m) (draws (scheduler m)))))
          as [wait|] eqn:Hn.
        -- rewrite (loop_retry _ _ _ _ _ _ _ Hcall Hc Hp Hn) in Hrun.
           apply IH in Hrun. destruct Hrun as (new & Hcalls & Hatt & Hr).
           exists (o :: new). cbn in Hcalls, Hatt.
           rewrite <- app_assoc in Hcalls. split; [exact Hcalls|].
           split; [cbn [length]; rewrite Nat.iter_succ_r; exact Hatt|].
           assert (Hro : Global.retried o) by (exists e; exact Hc).
           destruct r as [e'| |].
           ++ destruct Hr as (pre & o' & -> & Hpre & Ho' & Hresp & Herr & Hsl).
              exists (o :: pre), o'. repeat split; auto.
              rewrite Hsl. cbn. rewrite length_app. cbn. lia.
           ++ destruct Hr as (pre & o' & -> & Hpre & [Ho'|[_ Hnil]]).
              ** exists (o :: pre), o'. repeat split; auto.
              ** exfalso. cbn in Hnil. rewrite lookup_insert_eq in Hnil.
                 discriminate.
           ++ destruct Hr as [Hall Hlen]. split; [auto|cbn; lia].
        -- rewrite (loop_stop _ _ _ _ _ _ Hcall Hc Hp Hn) in Hrun.
           injection Hrun as <- <-. exists [o]. cbn.
           repeat split; auto. exists [], o. cbn. repeat split; auto; lia.
      * rewrite (loop_nil _ _ _ _ _ Hcall Hc Hp) in Hrun.
        injection Hrun as <- <-. exists [o]. cbn. repeat split; auto.
        exists [], o. repeat split; auto. right. split; [exists e|]; auto.
    + rewrite (loop_done _ _ _ _ Hcall Hc) in Hrun.
      injection Hrun as <- <-. exists [o]. cbn. repeat split; auto.
      exists [], o. cbn. repeat split; auto; lia.
    + rewrite (loop_panic _ _ _ _ Hcall Hc) in Hrun.
      injection Hrun as <- <-. exists [o]. cbn. repeat split; auto.
      exists [], o. repeat split; auto.
    + destruct (classify_fuel _ Hc).
Qed.

(** [Retry] is the loop, started on a reset scheduler, and the final check
    of the status. *)
Lemma Retry_unfold (fuel : nat) (m m2 : machine) (b : ExponentialBackOff)
    (r1 : result (option error)) :
  heap (scheduler m) !! p = Some b ->
  loop fuel (Global.started p b m) = (r1, m2) ->
  exists m' : machine,
    scheduler m' = scheduler m2 /\ world m' = world m2
    /\ calls m' = calls m2
    /\ Global.Retry p httpCall fuel m =
         (match r1 with
          | Ok (Some e) =>
              Ok (Global.response (locals m2), Global.attempts (locals m2),
                  Some e)
          | Ok None =>
              match Global.response (locals m2) with
              | None => Panic
              | Some r =>
                  Ok (Some r, Global.attempts (locals m2),
                      if Z.quot (StatusCode r) 100 =? 2 then None
                      else Some (Global.permanent (StatusCode r)))
              end
          | Panic => Panic
          | OutOfFuel => OutOfFuel
          end, m').
Proof.
  intros Hp Hloop.
  unfold Global.Retry, RetryNotify.
  unfold bind at 1. cbn [update_locals modify].
  unfold bind at 1. unfold bind at 1. unfold on_sched at 1.
  cbn [scheduler]. rewrite (Reset_ptr_run _ _ _ Hp).
  change (retry_loop (Global.doHttpCall httpCall) p Global.debug fuel _)
    with (loop fuel (Global.started p b m)).
  rewrite Hloop.
  destruct r1 as [[e|]| |].
  - pin_machine.
  - cbn. destruct (Global.response (locals m2)) as [r|] eqn:Hr.
    + unfold bind, update_locals, modify, get_locals, gets. cbn.
      try rewrite Hr. cbn.
      destruct (Z.quot (StatusCode r) 100 =? 2); cbn; pin_machine.
    + unfold bind, update_locals, modify, get_locals, gets. cbn.
      try rewrite Hr. cbn. pin_machine.
  - pin_machine.
  - pin_machine.
Qed.

(** A nil [BackOffSettings] makes [Reset] panic before any call. *)
Lemma Retry_nil (fuel : nat) (m : machine) :
  heap (scheduler m) !! p = None ->
  exists m' : machine,
    calls m' = calls m /\ Global.Retry p httpCall fuel m = (Panic, m').
Proof.
  intros Hp. unfold Global.Retry, RetryNotify.
  unfold bind at 1. cbn [update_locals modify].
  unfold bind at 1. unfold bind at 1. unfold on_sched at 1.
  cbn [scheduler]. rewrite (Reset_ptr_nil _ _ Hp).
  eexists. split; [|reflexivity]. reflexivity.
Qed.

Lemma classify_panic (o : outcome) :
  Global.classify o = Panic -> o = (None, None).
Proof.
  unfold Global.classify. destruct o as [[r|] [e|]]; cbn; try discriminate.
  - destruct (Z.quot (StatusCode r) 100 =? 5); discriminate.
  - reflexivity.
Qed.

(** Every run of [Retry], whatever its end. *)
Lemma Retry_run (fuel : nat) (m m' : machine)
    (r : result (option Response * Z * option error)) :
  Global.Retry p httpCall fuel m = (r, m') ->
  exists new : list outcome,
    calls m' = calls m ++ new
    /\ match r with
       | Ok (resp, n, e) =>
           exists pre o,
             new = pre ++ [o] /\ Forall Global.retried pre
             /\ n = Nat.iter (length new) Global.incr 0 /\ resp = fst o
             /\ Global.verdict o = Ok e
             /\ length (slept (scheduler m')) =
                  (length (slept (scheduler m)) + length pre)%nat
       | Panic =>
           (new = [] /\ heap (scheduler m) !! p = None)
           \/ exists pre,
                new = pre ++ [(None, None)] /\ Forall Global.retried pre
       | OutOfFuel => Forall Global.retried new /\ length new = fuel
       end.
Proof.
  intros Hrun.
  destruct (heap (scheduler m) !! p) as [b|] eqn:Hp.
  - destruct (loop fuel (Global.started p b m)) as [r1 m2] eqn:Hloop.
    destruct (Retry_unfold _ _ _ _ _ Hp Hloop) as (m3 & Hs & _ & Hc & Hret).
    rewrite Hret in Hrun. injection Hrun as <- <-.
    destruct (loop_run _ _ _ _ Hloop) as (new & Hcalls & Hatt & Hr).
    cbn in Hcalls, Hatt. exists new. split; [congruence|].
    destruct r1 as [[e|]| |].
    + destruct Hr as (pre & o & -> & Hpre & Ho & Hresp & _ & Hsl).
      exists pre, o. split; [reflexivity|]. split; [exact Hpre|].
      split; [exact Hatt|]. split; [exact Hresp|].
      split; [|rewrite Hs; exact Hsl].
      revert Ho. unfold Global.classify, Global.verdict.
      destruct (snd o); [auto|]. destruct (fst o); [|discriminate].
      destruct (Z.quot (StatusCode _) 100 =? 5); [auto|discriminate].
    + destruct Hr as (pre & o & -> & Hpre & Ho & Hresp & _ & Hsl).
      revert Ho. unfold Global.classify.
      destruct (snd o) eqn:Herr; [discriminate|].
      destruct (fst o) as [r|] eqn:Hfst; [|discriminate].
      destruct (Z.quot (StatusCode r) 100 =? 5) eqn:H5; [discriminate|].
      intros _. rewrite Hresp. exists pre, o.
      split; [reflexivity|]. split; [exact Hpre|].
      split; [exact Hatt|]. split; [symmetry; exact Hfst|].
      split; [|rewrite Hs; exact Hsl].
      unfold Global.verdict. rewrite Herr, Hfst, H5.
      destruct (Z.quot (StatusCode r) 100 =? 2); reflexivity.
    + destruct Hr as (pre & o & -> & Hpre & [Ho|[_ Hnil]]).
      * right. exists pre. rewrite (classify_panic _ Ho). auto.
      * cbn in Hnil. rewrite lookup_insert_eq in Hnil. discriminate.
    + exact Hr.
  - destruct (Retry_nil fuel _ Hp) as (m3 & Hc & Hret).
    rewrite Hret in Hrun. injection Hrun as <- <-.
    exists []. rewrite app_nil_r. auto.
Qed.

(** What [Retry] returned on some fuel it returns on any larger fuel. *)
Lemma Retry_more_fuel (fuel k : nat) (m m' : machine)
    (x : option Response * Z * option error) :
  Global.Retry p httpCall fuel m = (Ok x, m') ->
  Global.Retry p httpCall (fuel + k) m = (Ok x, m').
Proof.
  intros Hrun.
  destruct (heap (scheduler m) !! p) as [b|] eqn:Hp.
  - destruct (loop fuel (Global.started p b m)) as [r1 m2] eqn:Hloop.
    destruct (Retry_unfold _ _ _ _ _ Hp Hloop) as (m3 & _ & _ & _ & Hret).
    assert (Hr1 : r1 <> OutOfFuel).
    { intros ->. rewrite Hret in Hrun. discriminate. }
    pose proof (retry_loop_more_fuel _ _ _ _ k _ _ _ Hloop Hr1) as Hmore.
    unfold Global.Retry, RetryNotify in Hrun |- *.
    unfold bind at 1 in Hrun. unfold bind at 1.
    cbn [update_locals modify] in Hrun |- *.
    unfold bind at 1 in Hrun. unfold bind at 1.
    unfold bind at 1 in Hrun. unfold bind at 1.
    unfold on_sched at 1 in Hrun. unfold on_sched at 1.
    cbn [scheduler] in Hrun |- *.
    rewrite (Reset_ptr_run _ _ _ Hp) in Hrun |- *.
    change (retry_loop (Global.doHttpCall httpCall) p Global.debug fuel _)
      with (loop fuel (Global.started p b m)) in Hrun.
    change (retry_loop (Global.doHttpCall httpCall) p Global.debug (fuel + k) _)
      with (loop (fuel + k) (Global.started p b m)).
    rewrite Hloop in Hrun. rewrite Hmore. exact Hrun.
  - destruct (Retry_nil fuel _ Hp) as (m3 & _ & Hret).
    rewrite Hret in Hrun. discriminate.
Qed.
End GlobalAttempt.

(** ** What every run of Retry returns *)

Section GlobalRetry.
Context {W : Type}.
Variable p : loc.
Variable httpCall : W -> outcome * W.

#[local] Abbreviation machine := (machine W outcome Global.frame).

(** C5: the error [Retry] returns is nil exactly when the final attempt
    returned a response, without error, whose status lies in [200,300). *)
Theorem Retry_error_nil_iff_success (fuel : nat) (m m' : machine)
    (resp : option Response) (n : Z) (e : option error) :
  Global.Retry p httpCall fuel m = (Ok (resp, n, e), m') ->
  e = None <->
  exists r : Response,
    last (calls m') = Some (Some r, None) /\ 200 <= StatusCode r < 300.
Proof.
  intros Hrun. destruct (Retry_run _ _ _ _ _ _ Hrun) as (new & Hcalls & Hr).
  destruct Hr as (pre & o & -> & _ & _ & _ & Hv & _).
  rewrite Hcalls, app_assoc, last_snoc.
  revert Hv. unfold Global.verdict. destruct o as [[r|] [x|]]; cbn.
  - intros [= <-]. split; [discriminate|]. intros (r' & [=] & _).
  - destruct (Z.quot (StatusCode r) 100 =? 5) eqn:H5.
    + intros [= <-]. split; [discriminate|]. intros (r' & [= <-] & Hs).
      apply Z.eqb_eq, quot100_5xx in H5. lia.
    + destruct (Z.quot (StatusCode r) 100 =? 2) eqn:H2; intros [= <-].
      * apply Z.eqb_eq, quot100_2xx in H2. split; [|reflexivity].
        intros _. exists r. auto.
      * split; [discriminate|]. intros (r' & [= <-] & Hs).
        apply quot100_2xx in Hs. apply Z.eqb_neq in H2. contradiction.
  - intros [= <-]. split; [discriminate|]. intros (r' & [=] & _).
  - discriminate.
Qed.

(** C6: the attempt count [Retry] returns is the number of times it
    invoked the operation, and it is at least 1 (the counter is a Go [int]:
    the run makes fewer than 2^63 invocations). *)
Theorem Retry_attempts_count_calls (fuel : nat) (m m' : machine)
    (resp : option Response) (n : Z) (e : option error) :
  Global.Retry p httpCall fuel m = (Ok (resp, n, e), m') ->
  Z.of_nat (length (calls m')) - Z.of_nat (length (calls m)) < 2 ^ 63 ->
  n = Z.of_nat (length (calls m')) - Z.of_nat (length (calls m)) /\ 1 <= n.
Proof.
  intros Hrun. destruct (Retry_run _ _ _ _ _ _ Hrun) as (new & Hcalls & Hr).
  destruct Hr as (pre & o & -> & _ & -> & _).
  rewrite Hcalls, !length_app. intros Hbound.
  cbn [length] in *. rewrite incr_counts by lia. lia.
Qed.

(** X5: between two attempts of a run of [Retry] that returns there is one
    wait handed to the sleep of the retry loop: the attempts returned are
    one more than the waits slept during the run. *)
Lemma Retry_attempts_waits (fuel : nat) (m m' : machine)
    (resp : option Response) (n : Z) (e : option error) :
  Global.Retry p httpCall fuel m = (Ok (resp, n, e), m') ->
  Z.of_nat (length (calls m')) - Z.of_nat (length (calls m)) < 2 ^ 63 ->
  n = Z.of_nat (length (slept (scheduler m')))
      - Z.of_nat (length (slept (scheduler m))) + 1.
Proof.
  intros Hrun. destruct (Retry_run _ _ _ _ _ _ Hrun) as (new & Hcalls & Hr).
  destruct Hr as (pre & o & -> & _ & -> & _ & _ & ->).
  rewrite Hcalls, !length_app. intros Hbound.
  cbn [length] in *. rewrite incr_counts by lia. lia.
Qed.

(** A budget generous enough for the next call grants a wait, and stays
    generous enough for the calls after it. *)
Lemma generous_next (c : ExponentialBackOff) (clk : nat -> Z) (t n : nat)
    (u : Q) :
  generous c clk t (S n) ->
  exists wait : Z,
    fst (nextBackOff c (clk t) u) = Some wait
    /\ generous (snd (nextBackOff c (clk t) u)) clk (S t) n.
Proof.
  intros Hgen. unfold nextBackOff.
  set (start := match startTime c with Some s => s | None => clk t end).
  assert (Hgo : negb (MaxElapsedTime c =? 0)
                && (MaxElapsedTime c <? clk t - start) = false).
  { destruct Hgen as [->|Hgen]; [reflexivity|].
    specialize (Hgen 0%nat ltac:(lia)). rewrite Nat.add_0_r in Hgen.
    fold start in Hgen.
    destruct (Z.ltb_spec (MaxElapsedTime c) (clk t - start)); [lia|].
    apply andb_false_r. }
  rewrite Hgo. cbn. eexists. split; [reflexivity|].
  destruct Hgen as [H0|Hgen]; [left; exact H0|].
  right. intros k Hk. cbn. fold start.
  specialize (Hgen (S k) ltac:(lia)). fold start in Hgen.
  replace (S (t + k))%nat with (t + S k)%nat by lia. exact Hgen.
Qed.

(** Enough fuel gives the result: outcomes that call for a retry, then
    one that ends the loop, under a generous budget. *)
Lemma loop_plays (pre : list outcome) :
  forall (m : machine) (fuel : nat) (c : ExponentialBackOff) (o : outcome)
         (w' : W),
    heap (scheduler m) !! p = Some c ->
    generous c (clock (scheduler m)) (ticks (scheduler m)) (length pre) ->
    plays httpCall (world m) (pre ++ [o]) w' ->
    Forall Global.retried pre ->
    Global.classify o = Ok None ->
    (length pre < fuel)%nat ->
    exists m' : machine,
      retry_loop (Global.doHttpCall httpCall) p Global.debug fuel m
        = (Ok None, m')
      /\ calls m' = calls m ++ pre ++ [o]
      /\ world m' = w'
      /\ Global.response (locals m') = fst o
      /\ Global.attempts (locals m') =
           Nat.iter (S (length pre)) Global.incr (Global.attempts (locals m)).
Proof.
  induction pre as [|o1 pre IH];
    intros m fuel c o w' Hp Hgen Hplay Hpre Ho Hfuel;
    (destruct fuel as [|fuel]; [cbn in Hfuel; lia|]).
  - destruct Hplay as (w1 & Hcall & ->).
    rewrite (loop_done _ _ _ _ _ _ Hcall Ho).
    eexists. split; [reflexivity|]. cbn. repeat split.
  - destruct Hplay as (w1 & Hcall & Hplay).
    inversion Hpre as [|? ? [e1 He1] Hpre']; subst.
    destruct (generous_next c (clock (scheduler m)) (ticks (scheduler m))
                (length pre)
                (rand (scheduler m) (draws (scheduler m))) Hgen)
      as (wait & Hwait & Hgen').
    rewrite (loop_retry _ _ _ _ _ _ _ _ _ Hcall He1 Hp Hwait).
    destruct (IH (Global.after_wait p c wait o1 w1 m) fuel _ o w'
                (lookup_insert_eq _ _ _) Hgen' Hplay Hpre' Ho)
      as (m' & Hloop & Hcalls & Hw & Hresp & Hatt).
    { cbn in Hfuel. lia. }
    exists m'. split; [exact Hloop|]. cbn in Hcalls.
    rewrite <- app_assoc in Hcalls.
    repeat split; auto. cbn [length]. rewrite Nat.iter_succ_r. exact Hatt.
Qed.

(** An attempt that ends the loop at once ends [Retry]. *)
Lemma Retry_terminal (fuel : nat) (m : machine) (b : ExponentialBackOff)
    (r : Response) (w1 : W) :
  heap (scheduler m) !! p = Some b ->
  httpCall (world m) = ((Some r, None), w1) ->
  Z.quot (StatusCode r) 100 <> 5 ->
  exists m' : machine,
    Global.Retry p httpCall (S fuel) m =
      (Ok (Some r, 1,
           if Z.quot (StatusCode r) 100 =? 2 then None
           else Some (Global.permanent (StatusCode r))), m')
    /\ calls m' = calls m ++ [(Some r, None)]
    /\ world m' = w1.
Proof.
  intros Hp Hcall H5.
  assert (Hc : Global.classify (Some r, None) = Ok None).
  { unfold Global.classify. cbn. apply Z.eqb_neq in H5. rewrite H5.
    reflexivity. }
  destruct (Retry_unfold p httpCall (S fuel) m _ b _ Hp
              (loop_done p httpCall fuel (Global.started p b m) _ _ Hcall Hc))
    as (m' & _ & Hw & Hcalls & Hret).
  exists m'. cbn [Global.after_call locals Global.response Global.attempts
                  world calls Global.started] in Hret, Hw, Hcalls.
  change (Global.incr 0) with 1 in Hret. auto.
Qed.

(** C2: three 5xx responses, 500, 501 and 502, then a 200, under a
    budget the clock cannot exhaust: [Retry] returns the 200 response,
    the attempt count 4 and no error. *)
Theorem Retry_5xx_then_200 (fuel : nat) (m : machine)
    (b : ExponentialBackOff) (r1 r2 r3 r4 : Response) (w1 w2 w3 w4 : W) :
  heap (scheduler m) !! p = Some b ->
  generous (reset b) (clock (scheduler m)) (ticks (scheduler m)) 3 ->
  httpCall (world m) = ((Some r1, None), w1) -> StatusCode r1 = 500 ->
  httpCall w1 = ((Some r2, None), w2) -> StatusCode r2 = 501 ->
  httpCall w2 = ((Some r3, None), w3) -> StatusCode r3 = 502 ->
  httpCall w3 = ((Some r4, None), w4) -> StatusCode r4 = 200 ->
  (4 <= fuel)%nat ->
  exists m' : machine,
    Global.Retry p httpCall fuel m = (Ok (Some r4, 4, None), m')
    /\ calls m' = calls m ++ [(Some r1, None); (Some r2, None);
                              (Some r3, None); (Some r4, None)]
    /\ world m' = w4.
Proof.
  intros Hp Hgen H1 S1 H2 S2 H3 S3 H4 S4 Hfuel.
  assert (Hre : forall r : Response,
             Z.quot (StatusCode r) 100 = 5 -> Global.retried (Some r, None)).
  { intros r Hr. eexists. unfold Global.classify. cbn.
    apply Z.eqb_eq in Hr. rewrite Hr. reflexivity. }
  destruct (loop_plays [(Some r1, None); (Some r2, None); (Some r3, None)]
              (Global.started p b m) fuel (reset b) (Some r4, None) w4)
    as (m2 & Hloop & Hcalls & Hw & Hresp & Hatt).
  - cbn. apply lookup_insert_eq.
  - exact Hgen.
  - cbn. eauto 10.
  - repeat constructor; apply Hre; rewrite ?S1, ?S2, ?S3; reflexivity.
  - unfold Global.classify. cbn. rewrite S4. reflexivity.
  - cbn. lia.
  - destruct (Retry_unfold _ _ _ _ _ _ _ Hp Hloop)
      as (m' & _ & Hw' & Hcalls' & Hret).
    exists m'. rewrite Hret, Hresp, Hatt, Hcalls', Hw', Hcalls, Hw.
    cbn [fst length Global.started locals Global.attempts calls].
    replace (Nat.iter 4 Global.incr 0) with 4 by (vm_compute; reflexivity).
    rewrite S4. cbn. auto.
Qed.

(** C3: a first response with a 4xx status other than 429 ends [Retry]
    after that one attempt, with that response and the (Permanent) error
    of its status. *)
Theorem Retry_4xx_is_permanent (fuel : nat) (m : machine)
    (b : ExponentialBackOff) (r : Response) (w1 : W) :
  heap (scheduler m) !! p = Some b ->
  httpCall (world m) = ((Some r, None), w1) ->
  400 <= StatusCode r < 500 ->
  StatusCode r <> 429 ->
  (1 <= fuel)%nat ->
  exists m' : machine,
    Global.Retry p httpCall fuel m =
      (Ok (Some r, 1,
           Some (BadCode
                   {| HttpResponseCode := StatusCode r;
                      Message := "(Permanent) HTTP response code "
                                 +:+ Itoa (StatusCode r) |})), m')
    /\ calls m' = calls m ++ [(Some r, None)]
    /\ world m' = w1.
Proof.
  intros Hp Hcall Hs _ Hfuel.
  destruct fuel as [|fuel]; [lia|].
  assert (H5 : Z.quot (StatusCode r) 100 <> 5)
    by (rewrite quot100_5xx; lia).
  assert (H2 : Z.quot (StatusCode r) 100 <> 2)
    by (rewrite quot100_2xx; lia).
  destruct (Retry_terminal fuel m b r w1 Hp Hcall H5) as (m' & Hret & Hrest).
  apply Z.eqb_neq in H2. rewrite H2 in Hret. exists m'. auto.
Qed.

(** C7: an error returned for a response with a non-2xx status is a
    [BadHttpResponseCode] with that status and a message marked
    (Intermittent) for 5xx and (Permanent) otherwise; an error of the
    operation itself is returned as it is, and a transport error has no
    status code to assert. *)
Theorem Retry_error_taxonomy (fuel : nat) (m m' : machine)
    (resp : option Response) (n : Z) (e : error) :
  Global.Retry p httpCall fuel m = (Ok (resp, n, Some e), m') ->
  exists o : outcome,
    last (calls m') = Some o
    /\ (forall r : Response,
          o = (Some r, None) ->
          ~ 200 <= StatusCode r < 300
          /\ asBadHttpResponseCode e =
               Some {| HttpResponseCode := StatusCode r;
                       Message :=
                         (if Z.quot (StatusCode r) 100 =? 5
                          then "(Intermittent)" else "(Permanent)")
                         +:+ " HTTP response code " +:+ Itoa (StatusCode r) |})
    /\ (forall x : error, snd o = Some x -> e = x)
    /\ (forall msg : string,
          snd o = Some (TransportError msg) ->
          asBadHttpResponseCode e = None)
    /\ (snd o = None -> exists r, fst o = Some r).
Proof.
  intros Hrun. destruct (Retry_run _ _ _ _ _ _ Hrun) as (new & Hcalls & Hr).
  destruct Hr as (pre & o & -> & _ & _ & _ & Hv & _).
  exists o. rewrite Hcalls, app_assoc, last_snoc. split; [reflexivity|].
  revert Hv. unfold Global.verdict. destruct o as [[r|] [x|]]; cbn.
  - intros [= <-]. repeat split; try discriminate.
    + intros x' [= <-]. reflexivity.
    + intros msg [= ->]. reflexivity.
  - intros Hv. split; [|repeat split; try discriminate; eauto].
    intros r' [= <-].
    destruct (Z.quot (StatusCode r) 100 =? 5) eqn:H5.
    + injection Hv as <-. split; [|reflexivity].
      apply Z.eqb_eq, quot100_5xx in H5. lia.
    + destruct (Z.quot (StatusCode r) 100 =? 2) eqn:H2; [discriminate|].
      injection Hv as <-. split; [|reflexivity].
      rewrite <- quot100_2xx. apply Z.eqb_neq. exact H2.
  - intros [= <-]. repeat split; try discriminate.
    + intros x' [= <-]. reflexivity.
    + intros msg [= ->]. reflexivity.
  - discriminate.
Qed.

(** C9: with a valid scheduler behind [BackOffSettings], a run of [Retry]
    panics exactly when one of its invocations of the operation returned
    neither a response nor an error; [Retry] reads [StatusCode] through
    the nil response. *)
Theorem Retry_panics_on_nil_response (fuel : nat) (m m' : machine)
    (b : ExponentialBackOff) (new : list outcome)
    (r : result (option Response * Z * option error)) :
  heap (scheduler m) !! p = Some b ->
  Global.Retry p httpCall fuel m = (r, m') ->
  calls m' = calls m ++ new ->
  r = Panic <-> In (None, None) new.
Proof.
  intros Hp Hrun Hnew.
  destruct (Retry_run _ _ _ _ _ _ Hrun) as (new' & Hcalls & Hr).
  rewrite Hcalls in Hnew. apply app_inv_head in Hnew. subst new'.
  assert (Hnot : forall l, Forall (Global.retried) l -> ~ In (None, None) l).
  { intros l Hl Hin. rewrite List.Forall_forall in Hl.
    destruct (Hl _ Hin) as [x Hx]. discriminate. }
  destruct r as [[[resp n] e]| |].
  - split; [discriminate|]. intros Hin. exfalso.
    destruct Hr as (pre & o & -> & Hpre & _ & _ & Hv & _).
    apply in_app_iff in Hin. destruct Hin as [Hin|[->|[]]].
    + exact (Hnot _ Hpre Hin).
    + discriminate.
  - split; [|reflexivity]. intros _.
    destruct Hr as [[_ Hnil]|(pre & -> & _)]; [congruence|].
    apply in_app_iff. right. left. reflexivity.
  - split; [discriminate|]. intros Hin. exfalso.
    exact (Hnot _ (proj1 Hr) Hin).
Qed.

End GlobalRetry.

(** ** The waits of the scheduler *)

Lemma truncate_no_jitter (u rf : Q) (cur : Z) :
  rf == 0 -> truncate (u * rf * inject_Z cur) = 0.
Proof.
  unfold Qeq, truncate. cbn. intros Hrf.
  replace (Qnum rf) with 0 by lia.
  rewrite Z.mul_0_r, Z.mul_0_l. apply Z.quot_0_l. discriminate.
Qed.

Lemma truncate_grows (cur : Z) (mult : Q) :
  0 <= cur -> (1 <= mult)%Q -> cur <= truncate (inject_Z cur * mult).
Proof.
  unfold Qle, truncate. cbn. intros Hcur Hmult.
  rewrite <- (Z.quot_mul cur (Zpos (Qden mult))) at 1 by discriminate.
  apply Z.quot_le_mono; [reflexivity|]. nia.
Qed.

(** Without jitter every wait lies between the clamped current interval and
    [MaxInterval], and the waits never decrease. *)
Lemma waits_sorted (inputs : list (Z * Q)) :
  forall c : ExponentialBackOff,
    RandomizationFactor c == 0 ->
    (1 <= Multiplier c)%Q ->
    0 <= MaxInterval c ->
    0 <= currentInterval c ->
    Forall (fun x => Z.min (currentInterval c) (MaxInterval c) <= x
                     /\ x <= MaxInterval c) (waits c inputs)
    /\ StronglySorted Z.le (waits c inputs).
Proof.
  induction inputs as [|[now u] rest IH]; intros c Hrf Hmult Hmax Hcur.
  - split; constructor.
  - unfold waits. cbn [backoffs]. unfold nextBackOff.
    destruct (negb (MaxElapsedTime c =? 0)
              && (MaxElapsedTime c <?
                  now - match startTime c with Some s => s | None => now end)).
    + cbn. apply (IH (set_running (currentInterval c) _ c)); assumption.
    + cbn [fst snd omap list_omap id]. rewrite (truncate_no_jitter _ _ _ Hrf).
      rewrite Z.add_0_r.
      set (d := Z.min (currentInterval c) (MaxInterval c)).
      pose proof (truncate_grows d (Multiplier c) ltac:(lia) Hmult) as Hgrow.
      destruct (IH (set_running
                      (Z.min (truncate (inject_Z d * Multiplier c))
                         (MaxInterval c)) (Some
                      match startTime c with Some s => s | None => now end) c)
                  Hrf Hmult Hmax ltac:(cbn; lia)) as [Hall Hsorted].
      cbn in Hall. fold (waits (set_running
                      (Z.min (truncate (inject_Z d * Multiplier c))
                         (MaxInterval c)) (Some
                      match startTime c with Some s => s | None => now end) c)
                      rest).
      split.
      * constructor; [lia|].
        eapply Forall_impl; [exact Hall|]. cbn. intros x. lia.
      * constructor; [exact Hsorted|].
        eapply Forall_impl; [exact Hall|]. cbn. intros x. lia.
Qed.

(** C8: with a randomization factor of 0 the waits that successive
    [NextBackOff] calls return within one retry sequence, which starts with
    [Reset], never decrease and never exceed [MaxInterval]. *)
Theorem NextBackOff_monotone (b : ExponentialBackOff) (inputs : list (Z * Q)) :
  RandomizationFactor b == 0 ->
  0 < InitialInterval b ->
  (1 < Multiplier b)%Q ->
  0 <= MaxInterval b ->
  StronglySorted Z.le (waits (reset b) inputs)
  /\ Forall (fun wait => wait <= MaxInterval b) (waits (reset b) inputs).
Proof.
  intros Hrf Hinit Hmult Hmax.
  destruct (waits_sorted inputs (reset b) Hrf (Qlt_le_weak _ _ Hmult) Hmax
              ltac:(cbn; lia)) as [Hall Hsorted].
  split; [exact Hsorted|].
  eapply Forall_impl; [exact Hall|]. cbn. intros x. lia.
Qed.

(** ** The method-based Retry leaves its receiver alone *)

(** The methods of a scheduler write to its own cell only. *)
Lemma Reset_frame (q : loc) (s s' : sched) (r : result unit) :
  Reset q s = (r, s') ->
  forall l : loc, l <> q -> heap s' !! l = heap s !! l.
Proof.
  intros Hrun l Hl. destruct (heap s !! q) as [c|] eqn:Hq.
  - rewrite (Reset_ptr_run _ _ _ Hq) in Hrun. injection Hrun as _ <-.
    cbn. apply lookup_insert_ne. congruence.
  - rewrite (Reset_ptr_nil _ _ Hq) in Hrun. injection Hrun as _ <-.
    reflexivity.
Qed.

Lemma NextBackOff_frame (q : loc) (s s' : sched) (r : result (option Z)) :
  NextBackOff q s = (r, s') ->
  forall l : loc, l <> q -> heap s' !! l = heap s !! l.
Proof.
  intros Hrun l Hl. destruct (heap s !! q) as [c|] eqn:Hq.
  - rewrite (NextBackOff_ptr_run _ _ _ Hq) in Hrun. injection Hrun as _ <-.
    cbn. apply lookup_insert_ne. congruence.
  - rewrite (NextBackOff_ptr_nil _ _ Hq) in Hrun. injection Hrun as _ <-.
    reflexivity.
Qed.

Section LoopFrame.
Context {W Out L : Type}.

Variable operation : M (machine W Out L) (option error).
Variable notify : error -> Z -> M (machine W Out L) unit.
Variable q : loc.

Hypothesis operation_sched :
  forall m r m', operation m = (r, m') -> scheduler m' = scheduler m.
Hypothesis notify_sched :
  forall e wait m r m', notify e wait m = (r, m') -> scheduler m' = scheduler m.

(** A loop on the scheduler at [q] writes to no other cell of the heap. *)
Lemma retry_loop_frame (fuel : nat) :
  forall (m m' : machine W Out L) (r : result (option error)),
    retry_loop operation q notify fuel m = (r, m') ->
    forall l : loc,
      l <> q -> heap (scheduler m') !! l = heap (scheduler m) !! l.
Proof.
  induction fuel as [|fuel IH]; intros m m' r Hrun l Hl.
  - cbn in Hrun. injection Hrun as _ <-. reflexivity.
  - rewrite retry_loop_S in Hrun. unfold bind at 1 in Hrun.
    destruct (operation m) as [ro m1] eqn:Hop.
    apply operation_sched in Hop. rewrite <- Hop.
    destruct ro as [[e|]| |];
      [|injection Hrun as _ <-; reflexivity ..].
    unfold bind at 1 in Hrun.
    destruct (on_sched (NextBackOff q) m1) as [rn m2] eqn:Hnext.
    apply on_sched_frame in Hnext. destruct Hnext as (Hnext & _).
    rewrite <- (NextBackOff_frame _ _ _ _ Hnext l Hl).
    destruct rn as [[wait|]| |];
      [|injection Hrun as _ <-; reflexivity ..].
    unfold bind at 1 in Hrun.
    destruct (notify e wait m2) as [rv m3] eqn:Hnot.
    apply notify_sched in Hnot. rewrite <- Hnot.
    destruct rv as [[]| |];
      [|injection Hrun as _ <-; reflexivity ..].
    unfold bind at 1 in Hrun.
    destruct (on_sched (Sleep wait) m3) as [rs m4] eqn:Hsleep.
    apply on_sched_frame in Hsleep. destruct Hsleep as (Hsleep & _).
    injection Hsleep as <- Hs4.
    rewrite (IH _ _ _ Hrun l Hl), <- Hs4. reflexivity.
Qed.

Lemma RetryNotify_frame (fuel : nat) (m m' : machine W Out L)
    (r : result (option error)) (l : loc) :
  RetryNotify operation q notify fuel m = (r, m') ->
  l <> q -> heap (scheduler m') !! l = heap (scheduler m) !! l.
Proof.
  unfold RetryNotify, bind. intros Hrun Hl.
  destruct (on_sched (Reset q) m) as [rr m1] eqn:Hreset.
  apply on_sched_frame in Hreset. destruct Hreset as (Hreset & _).
  rewrite <- (Reset_frame _ _ _ _ Hreset l Hl).
  destruct rr as [[]| |]; [|injection Hrun as _ <-; reflexivity ..].
  exact (retry_loop_frame _ _ _ _ Hrun l Hl).
Qed.
End LoopFrame.

Section MethodRetry.
Context {W : Type}.
Variable DumpResponse : Response -> string * option error.
Variable backOffSettings : loc.
Variable httpCall : W -> Method.outcome3 * W.

#[local] Abbreviation machine3 := (machine W Method.outcome3 Method.frame).

Lemma Method_doHttpCall_sched (m m' : machine3) (r : result (option error)) :
  Method.doHttpCall DumpResponse httpCall m = (r, m') ->
  scheduler m' = scheduler m.
Proof.
  unfold Method.doHttpCall, bind, invoke, update_locals, modify,
    get_locals, gets, deref.
  destruct (httpCall (world m)) as [[[resp te] pe] w]. cbn.
  destruct te; [intros [= _ <-]; reflexivity|].
  destruct pe; [intros [= _ <-]; reflexivity|].
  destruct resp as [r0|]; cbn; [|intros [= _ <-]; reflexivity].
  destruct (DumpResponse r0) as [raw readErr].
  destruct (Z.quot (StatusCode r0) 100 =? 5);
    [intros [= _ <-]; reflexivity|].
  destruct (negb (Z.quot (StatusCode r0) 100 =? 2)); cbn;
    intros [= _ <-]; reflexivity.
Qed.

(** C10: the method-based [Retry] runs the backoff loop on a copy of its
    receiver held in a new cell, so the scheduler behind the receiver - as
    every scheduler there was before the call - has all its fields,
    settings and running state, unchanged after [Retry], whatever the
    outcome of the run. *)
Theorem Retry_leaves_receiver_unchanged (fuel : nat) (m : machine3)
    (l : loc) (v : ExponentialBackOff) :
  heap (scheduler m) !! l = Some v ->
  heap (scheduler
          (snd (Method.Retry DumpResponse backOffSettings httpCall fuel m)))
    !! l = Some v.
Proof.
  intros Hl. unfold Method.Retry.
  unfold bind at 1. cbn [update_locals modify].
  unfold bind at 1. unfold on_sched at 1. cbn [scheduler].
  unfold Method.copy. unfold bind at 1, load.
  destruct (heap (scheduler m) !! backOffSettings) as [c|] eqn:Hp;
    [|cbn; exact Hl].
  cbn [bind gets store modify ret fst snd].
  set (q := fresh (dom (heap (scheduler m)))).
  assert (Hq : l <> q).
  { intros ->. pose proof (is_fresh (dom (heap (scheduler m)))) as Hfresh.
    apply Hfresh. apply elem_of_dom. eauto. }
  set (m1 := {| scheduler := set_heap (<[q:=c]> (heap (scheduler m)))
                               (scheduler m);
                world := world m; calls := calls m;
                locals := {| Method.response := None;
                             Method.tempError := None;
                             Method.permError := None;
                             Method.attempts := 0 |} |} : machine3).
  assert (Hl1 : heap (scheduler m1) !! l = Some v).
  { cbn. rewrite lookup_insert_ne by congruence. exact Hl. }
  change (heap (scheduler
            (snd (bind (RetryNotify
                          (Method.doHttpCall DumpResponse httpCall) q
                          (Method.logError) fuel)
                    (fun _ =>
                       let! f := get_locals in
                       match Method.permError f with
                       | Some e => ret (Method.response f, Method.attempts f, Some e)
                       | None =>
                           match Method.tempError f with
                           | Some e => ret (Method.response f, Method.attempts f, Some e)
                           | None => ret (Method.response f, Method.attempts f, None)
                           end
                       end) m1))) !! l = Some v).
  unfold bind at 1.
  destruct (RetryNotify (Method.doHttpCall DumpResponse httpCall) q
              Method.logError fuel m1) as [rn m2] eqn:Hrun.
  assert (Hl2 : heap (scheduler m2) !! l = Some v).
  { rewrite <- Hl1.
    refine (RetryNotify_frame _ _ q
              (fun m0 r0 m0' => Method_doHttpCall_sched m0 m0' r0) _
              fuel m1 m2 rn l Hrun Hq).
    intros e wait m0 r0 m0' [= _ <-]. reflexivity. }
  destruct rn as [e| |]; cbn; try exact Hl2.
  unfold bind, get_locals, gets.
  destruct (Method.permError (locals m2)); cbn; [exact Hl2|].
  destruct (Method.tempError (locals m2)); cbn; exact Hl2.
Qed.
End MethodRetry.

(** * Runs of the test bench *)

Import TestSetup.

(** [TestRetry5xx]: the 200 queued behind three 5xx responses is reached. *)
Example TestRetry5xx :
  fst (Global.Retry 1%positive httpGet 10
         (bench settings ms [500; 501; 502; 200; 502]))
  = Ok (Some {| StatusCode := 200; Body := body 200 |}, 4, None).
Proof. vm_compute. reflexivity. Qed.

(** [TestRetry5xxAndFail]: with readings 6ms apart the budget of 20ms is
    spent after four waits, and the 500 of the fifth attempt is returned. *)
Example TestRetry5xxAndFail :
  fst (Global.Retry 1%positive httpGet 10
         (bench settings (6 * ms) [500; 500; 500; 500; 500]))
  = Ok (Some {| StatusCode := 500; Body := body 500 |}, 5,
        Some (BadCode {| HttpResponseCode := 500;
                         Message := "(Intermittent) HTTP response code 500" |})).
Proof. vm_compute. reflexivity. Qed.

(** [TestNetworkFailure]: five attempts before the scheduler gives up. *)
Example TestNetworkFailure :
  fst (Global.Retry 1%positive httpGetBadPort 10 (bench settings (6 * ms) tt))
  = Ok (None, 5, Some (TransportError "connection refused")).
Proof. vm_compute. reflexivity. Qed.

(** The package-level [Retry] resets and advances the scheduler behind
    [BackOffSettings] itself. *)
Example Global_Retry_moves_BackOffSettings :
  heap (scheduler (snd (Global.Retry 1%positive httpGet 10
                          (bench settings ms [500; 200])))) !! 1%positive
  = Some (set_running 1200000 (Some 0) settings).
Proof. vm_compute. reflexivity. Qed.

Lemma Retry_5xx_then_200_witness :
  exists m',
    Global.Retry 1%positive httpGet 4 (bench settings ms [500; 501; 502; 200])
    = (Ok (Some {| StatusCode := 200; Body := body 200 |}, 4, None), m')
    /\ calls m' =
         calls (bench settings ms [500; 501; 502; 200])
         ++ [(Some {| StatusCode := 500; Body := body 500 |}, None);
             (Some {| StatusCode := 501; Body := body 501 |}, None);
             (Some {| StatusCode := 502; Body := body 502 |}, None);
             (Some {| StatusCode := 200; Body := body 200 |}, None)]
    /\ world m' = [].
Proof.
  apply (Retry_5xx_then_200 1%positive httpGet 4
           (bench settings ms [500; 501; 502; 200]) settings
           _ _ _ _ [501; 502; 200] [502; 200] [200] []);
    try reflexivity.
  right. intros k Hk. cbn. unfold ms. lia.
Defined.

Lemma Retry_4xx_is_permanent_witness :
  exists m',
    Global.Retry 1%positive httpGet 1 (bench settings ms [409; 200])
    = (Ok (Some {| StatusCode := 409; Body := body 409 |}, 1,
           Some (BadCode
                   {| HttpResponseCode := 409;
                      Message := "(Permanent) HTTP response code "
                                 +:+ Itoa 409 |})), m')
    /\ calls m' = calls (bench settings ms [409; 200])
                  ++ [(Some {| StatusCode := 409; Body := body 409 |}, None)]
    /\ world m' = [200].
Proof.
  apply (Retry_4xx_is_permanent 1%positive httpGet 1
           (bench settings ms [409; 200]) settings
           {| StatusCode := 409; Body := body 409 |} [200]);
    try reflexivity; cbn; lia.
Defined.

Lemma Retry_error_nil_iff_success_witness :
  @None error = None <->
  exists r : Response,
    last (calls (snd run_500_200)) = Some (Some r, None)
    /\ 200 <= StatusCode r < 300.
Proof.
  apply (Retry_error_nil_iff_success 1%positive httpGet 10
           (bench settings ms [500; 200]) (snd run_500_200)
           (Some {| StatusCode := 200; Body := body 200 |}) 2 None).
  vm_compute. reflexivity.
Defined.

Lemma Retry_attempts_count_calls_witness :
  2 = Z.of_nat (length (calls (snd run_500_200)))
      - Z.of_nat (length (calls (bench settings ms [500; 200])))
  /\ 1 <= 2.
Proof.
  apply (Retry_attempts_count_calls 1%positive httpGet 10
           (bench settings ms [500; 200]) (snd run_500_200)
           (Some {| StatusCode := 200; Body := body 200 |}) 2 None).
  - vm_compute. reflexivity.
  - vm_compute. reflexivity.
Defined.

Lemma Retry_error_taxonomy_witness :
  exists o : outcome,
    last (calls (snd run_404)) = Some o
    /\ (forall r : Response,
          o = (Some r, None) ->
          ~ 200 <= StatusCode r < 300
          /\ asBadHttpResponseCode (Global.permanent 404) =
               Some {| HttpResponseCode := StatusCode r;
                       Message :=
                         (if Z.quot (StatusCode r) 100 =? 5
                          then "(Intermittent)" else "(Permanent)")
                         +:+ " HTTP response code " +:+ Itoa (StatusCode r) |})
    /\ (forall x : error, snd o = Some x -> Global.permanent 404 = x)
    /\ (forall msg : string,
          snd o = Some (TransportError msg) ->
          asBadHttpResponseCode (Global.permanent 404) = None)
    /\ (snd o = None -> exists r, fst o = Some r).
Proof.
  apply (Retry_error_taxonomy 1%positive httpGet 10 (bench settings ms [404])
           (snd run_404) (Some {| StatusCode := 404; Body := body 404 |}) 1).
  vm_compute. reflexivity.
Defined.

Lemma Retry_panics_on_nil_response_witness :
  fst run_nothing = Panic <-> In (None, None) [(@None Response, @None error)].
Proof.
  apply (Retry_panics_on_nil_response 1%positive returnNothing 10
           (bench settings ms tt) (snd run_nothing) settings).
  - reflexivity.
  - vm_compute. reflexivity.
  - vm_compute. reflexivity.
Defined.

(** The waits of the steady scheduler over [readings], in nanoseconds. *)
Example steady_waits :
  waits (reset steady) readings
  = [1000000; 1200000; 1440000; 1728000; 2073600; 2488320; 2985984;
     3583180; 4299816; 5000000; 5000000; 5000000].
Proof. vm_compute. reflexivity. Qed.

Lemma NextBackOff_monotone_witness :
  StronglySorted Z.le (waits (reset steady) readings)
  /\ Forall (fun wait => wait <= MaxInterval steady)
       (waits (reset steady) readings).
Proof.
  apply (NextBackOff_monotone steady readings).
  - reflexivity.
  - reflexivity.
  - reflexivity.
  - vm_compute. discriminate.
Defined.

Lemma Retry_leaves_receiver_unchanged_witness :
  heap (scheduler
          (snd (Method.Retry Dump 1%positive httpGet3 10
                  (bench3 settings ms [500; 200])))) !! 1%positive
  = Some settings.
Proof.
  apply (Retry_leaves_receiver_unchanged Dump 1%positive httpGet3 10
           (bench3 settings ms [500; 200]) 1%positive settings).
  reflexivity.
Defined.

(** The copy the loop ran on sits in a new cell, and has advanced. *)
Example Method_Retry_runs_on_a_copy :
  heap (scheduler
          (snd (Method.Retry Dump 1%positive httpGet3 10
                  (bench3 settings ms [500; 200])))) !! 2%positive
  = Some (set_running 1200000 (Some 0) settings).
Proof. vm_compute. reflexivity. Qed.

(** The method-based [Retry] drops what [backoff.RetryNotify] returns: after
    the same five 500 responses its error is nil, since neither [tempError]
    nor [permError] was assigned. *)
Example Method_Retry_drops_intermittent_error :
  fst (Method.Retry Dump 1%positive httpGet3 10
         (bench3 settings (6 * ms) [500; 500; 500; 500; 500]))
  = Ok (Some {| StatusCode := 500; Body := body 500 |}, 5, None).
Proof. vm_compute. reflexivity. Qed.

(** * Runs, attempt by attempt *)

(** ** A loop on a scheduler behind a pointer *)

Lemma same_settings_refl (b : ExponentialBackOff) : same_settings b b.
Proof. unfold same_settings. repeat split. Qed.

Lemma same_settings_trans (a b c : ExponentialBackOff) :
  same_settings a b -> same_settings b c -> same_settings a c.
Proof. unfold same_settings. intuition congruence. Qed.

Lemma same_settings_next (b : ExponentialBackOff) (now : Z) (u : Q) :
  same_settings b (snd (nextBackOff b now u)).
Proof.
  unfold nextBackOff, same_settings.
  destruct (negb (MaxElapsedTime b =? 0) && _); cbn; repeat split.
Qed.

(** The loop of [backoff.RetryNotify] on the scheduler at [q], for a closure
    that invokes [httpCall] once, classifies the outcome by [cls] and brings
    its variables up to date by [upd]: both closures are of this kind. *)
Section PointerLoop.
Context {W Out L : Type}.
Variable httpCall : W -> Out * W.
Variable operation : M (machine W Out L) (option error).
Variable cls : Out -> result (option error).
Variable upd : Out -> L -> L.
Variable notify : error -> Z -> M (machine W Out L) unit.
Variable q : loc.

Hypothesis operation_run :
  forall m o w,
    httpCall (world m) = (o, w) -> operation m = (cls o, called upd o w m).
Hypothesis cls_fuel : forall o, cls o <> OutOfFuel.
Hypothesis notify_run : forall e wait m, notify e wait m = (Ok tt, m).

#[local] Abbreviation ploop := (retry_loop operation q notify).

Lemma ploop_end (fuel : nat) (m : machine W Out L) (o : Out) (w : W) :
  httpCall (world m) = (o, w) ->
  cls o = Ok None \/ cls o = Panic ->
  ploop (S fuel) m = (cls o, called upd o w m).
Proof.
  intros Hcall Hc. rewrite retry_loop_S. unfold bind at 1.
  rewrite (operation_run _ _ _ Hcall).
  destruct Hc as [Hc|Hc]; rewrite Hc; reflexivity.
Qed.

Lemma ploop_retry (fuel : nat) (m : machine W Out L) (o : Out) (w : W)
    (e : error) (b : ExponentialBackOff) (wait : Z) :
  httpCall (world m) = (o, w) ->
  cls o = Ok (Some e) ->
  heap (scheduler m) !! q = Some b ->
  fst (nextBackOff b (clock (scheduler m) (ticks (scheduler m)))
         (rand (scheduler m) (draws (scheduler m)))) = Some wait ->
  ploop (S fuel) m =
    ploop fuel (put_sched (slept_on wait (after_next q b (scheduler m)))
                  (called upd o w m)).
Proof.
  intros Hcall Hc Hq Hn. rewrite retry_loop_S. unfold bind at 1.
  rewrite (operation_run _ _ _ Hcall), Hc.
  unfold bind at 1, on_sched at 1.
  change (scheduler (called upd o w m)) with (scheduler m).
  rewrite (NextBackOff_ptr_run _ _ _ Hq), Hn.
  unfold bind at 1. rewrite notify_run. reflexivity.
Qed.

Lemma ploop_stop (fuel : nat) (m : machine W Out L) (o : Out) (w : W)
    (e : error) (b : ExponentialBackOff) :
  httpCall (world m) = (o, w) ->
  cls o = Ok (Some e) ->
  heap (scheduler m) !! q = Some b ->
  fst (nextBackOff b (clock (scheduler m) (ticks (scheduler m)))
         (rand (scheduler m) (draws (scheduler m)))) = None ->
  ploop (S fuel) m =
    (Ok (Some e), put_sched (after_next q b (scheduler m)) (called upd o w m)).
Proof.
  intros Hcall Hc Hq Hn. rewrite retry_loop_S. unfold bind at 1.
  rewrite (operation_run _ _ _ Hcall), Hc.
  unfold bind at 1, on_sched at 1.
  change (scheduler (called upd o w m)) with (scheduler m).
  rewrite (NextBackOff_ptr_run _ _ _ Hq), Hn. reflexivity.
Qed.

Lemma ploop_nil (fuel : nat) (m : machine W Out L) (o : Out) (w : W)
    (e : error) :
  httpCall (world m) = (o, w) ->
  cls o = Ok (Some e) ->
  heap (scheduler m) !! q = None ->
  ploop (S fuel) m = (Panic, called upd o w m).
Proof.
  intros Hcall Hc Hq. rewrite retry_loop_S. unfold bind at 1.
  rewrite (operation_run _ _ _ Hcall), Hc.
  unfold bind at 1, on_sched at 1.
  change (scheduler (called upd o w m)) with (scheduler m).
  rewrite (NextBackOff_ptr_nil _ _ Hq). destruct m; reflexivity.
Qed.

(** Every run of the loop: the outcomes logged are those the operation gave
    from world to world, the variables were brought up to date once per
    outcome, every outcome but the last made the loop go on, and the
    scheduler at [q] kept its settings. *)
Lemma ploop_run (fuel : nat) :
  forall (m m' : machine W Out L) (r : result (option error)),
    ploop fuel m = (r, m') ->
    exists new : list Out,
      calls m' = calls m ++ new
      /\ plays httpCall (world m) new (world m')
      /\ locals m' = fold_left (fun l o => upd o l) new (locals m)
      /\ (forall b, heap (scheduler m) !! q = Some b ->
            exists c, heap (scheduler m') !! q = Some c /\ same_settings b c)
      /\ match r with
         | Ok e =>
             exists pre o,
               new = pre ++ [o] /\ Forall (goes_on cls) pre /\ cls o = Ok e
               /\ length (slept (scheduler m')) =
                    (length (slept (scheduler m)) + length pre)%nat
         | Panic =>
             exists pre o,
               new = pre ++ [o] /\ Forall (goes_on cls) pre
               /\ (cls o = Panic
                   \/ (goes_on cls o /\ heap (scheduler m) !! q = None))
         | OutOfFuel => Forall (goes_on cls) new /\ length new = fuel
         end.
Proof.
  pose proof same_settings_next as Hsame.
  induction fuel as [|fuel IH]; intros m m' r Hrun.
  - cbn in Hrun. injection Hrun as <- <-. exists [].
    rewrite app_nil_r. cbn.
    split; [reflexivity|]. split; [reflexivity|]. split; [reflexivity|].
    split; [|split; [constructor|reflexivity]].
    intros b Hb. exists b. split; [exact Hb|apply same_settings_refl].
  - destruct (httpCall (world m)) as [o w] eqn:Hcall.
    destruct (cls o) as [[e|]| |] eqn:Hc.
    + destruct (heap (scheduler m) !! q) as [b|] eqn:Hq.
      * destruct (fst (nextBackOff b (clock (scheduler m) (ticks (scheduler m)))
                         (rand (scheduler m) (draws (scheduler m)))))
          as [wait|] eqn:Hn.
        -- rewrite (ploop_retry _ _ _ _ _ _ _ Hcall Hc Hq Hn) in Hrun.
           apply IH in Hrun.
           destruct Hrun as (new & Hcalls & Hplay & Hloc & Hset & Hr).
           exists (o :: new). cbn in Hcalls, Hplay, Hloc, Hset.
           rewrite <- app_assoc in Hcalls. split; [exact Hcalls|].
           split; [cbn; eauto|]. split; [exact Hloc|].
           assert (Hgo : goes_on cls o) by (exists e; exact Hc).
           split.
           { intros b0 [= <-].
             destruct (Hset _ (lookup_insert_eq _ _ _)) as (c & Hc' & Hs').
             exists c. split; [exact Hc'|].
             exact (same_settings_trans _ _ _ (Hsame b _ _) Hs'). }
           destruct r as [e'| |].
           ++ destruct Hr as (pre & o' & -> & Hpre & Ho' & Hsl).
              exists (o :: pre), o'. repeat split; auto.
              rewrite Hsl. cbn. rewrite length_app. cbn. lia.
           ++ destruct Hr as (pre & o' & -> & Hpre & [Ho'|[_ Hnil]]).
              ** exists (o :: pre), o'. repeat split; auto.
              ** exfalso. cbn in Hnil. rewrite lookup_insert_eq in Hnil.
                 discriminate.
           ++ destruct Hr as [Hall Hlen]. split; [auto|cbn; lia].
        -- rewrite (ploop_stop _ _ _ _ _ _ Hcall Hc Hq Hn) in Hrun.
           injection Hrun as <- <-. exists [o]. cbn.
           split; [reflexivity|]. split; [eauto|]. split; [reflexivity|].
           split.
           { intros b0 [= <-]. eexists. rewrite lookup_insert_eq.
             split; [reflexivity|]. apply Hsame. }
           exists [], o. cbn. repeat split; auto.
      * rewrite (ploop_nil _ _ _ _ _ Hcall Hc Hq) in Hrun.
        injection Hrun as <- <-. exists [o]. cbn.
        split; [reflexivity|]. split; [eauto|]. split; [reflexivity|].
        split; [intros b0 [=]|].
        exists [], o. repeat split; auto. right. split; [exists e|]; auto.
    + rewrite (ploop_end _ _ _ _ Hcall (or_introl Hc)), Hc in Hrun.
      injection Hrun as <- <-. exists [o]. cbn.
      split; [reflexivity|]. split; [eauto|]. split; [reflexivity|].
      split. { intros b Hb. exists b. split; [exact Hb|apply same_settings_refl]. }
      exists [], o. cbn. repeat split; auto.
    + rewrite (ploop_end _ _ _ _ Hcall (or_intror Hc)), Hc in Hrun.
      injection Hrun as <- <-. exists [o]. cbn.
      split; [reflexivity|]. split; [eauto|]. split; [reflexivity|].
      split. { intros b Hb. exists b. split; [exact Hb|apply same_settings_refl]. }
      exists [], o. repeat split; auto.
    + destruct (cls_fuel _ Hc).
Qed.
End PointerLoop.

(** ** The package-level Retry, attempt by attempt *)

Section GlobalTrace.
Context {W : Type}.
Variable p : loc.
Variable httpCall : W -> outcome * W.

#[local] Abbreviation gmachine := (machine W outcome Global.frame).

Lemma Global_operation_run (m : gmachine) (o : outcome) (w : W) :
  httpCall (world m) = (o, w) ->
  Global.doHttpCall httpCall m = (Global.classify o, called Global_assigned o w m).
Proof. exact (doHttpCall_run httpCall m o w). Qed.

Lemma Global_operation_sched (m m' : gmachine) (r : result (option error)) :
  Global.doHttpCall httpCall m = (r, m') -> scheduler m' = scheduler m.
Proof.
  destruct (httpCall (world m)) as [o w] eqn:Hcall.
  rewrite (Global_operation_run _ _ _ Hcall). intros [= _ <-]. reflexivity.
Qed.

Lemma goes_on_retryable (o : outcome) :
  goes_on Global.classify o <-> retryable o.
Proof.
  unfold goes_on, retryable, Global.classify.
  destruct o as [[r|] [x|]]; cbn.
  - split; eauto.
  - destruct (Z.quot (StatusCode r) 100 =? 5) eqn:H5.
    + apply Z.eqb_eq, quot100_5xx in H5. split; eauto 10.
    + apply Z.eqb_neq in H5. rewrite quot100_5xx in H5. split.
      * intros [e [=]].
      * intros [[x [=]]|[_ (r' & [= <-] & Hs)]]. contradiction.
  - split; eauto.
  - split.
    + intros [e [=]].
    + intros [[x [=]]|[_ (r' & [=] & _)]].
Qed.

(** The machine a nil [BackOffSettings] leaves: only the locals were
    initialised. *)
Lemma Retry_nil_machine (fuel : nat) (m : gmachine) :
  heap (scheduler m) !! p = None ->
  Global.Retry p httpCall fuel m =
    (Panic, {| scheduler := scheduler m; world := world m; calls := calls m;
               locals := {| Global.response := None; Global.err := None;
                            Global.attempts := 0 |} |}).
Proof.
  intros Hp. unfold Global.Retry, RetryNotify.
  unfold bind at 1. cbn [update_locals modify].
  unfold bind at 1. unfold bind at 1. unfold on_sched at 1.
  cbn [scheduler]. rewrite (Reset_ptr_nil _ _ Hp). reflexivity.
Qed.

(** X1: every run of [Retry] that returns invoked the operation one attempt
    after the other, from world to world; every attempt before the last
    returned an error or a 5xx response - after an outcome that is not
    retryable no further attempt is made - and the response returned is that
    of the last attempt. *)
Theorem Retry_attempts_in_sequence (fuel : nat) (m m' : gmachine)
    (resp : option Response) (n : Z) (e : option error) :
  Global.Retry p httpCall fuel m = (Ok (resp, n, e), m') ->
  exists (pre : list outcome) (o : outcome),
    calls m' = calls m ++ pre ++ [o]
    /\ plays httpCall (world m) (pre ++ [o]) (world m')
    /\ Forall retryable pre
    /\ resp = fst o.
Proof.
  intros Hrun.
  destruct (heap (scheduler m) !! p) as [b|] eqn:Hp.
  - destruct (retry_loop (Global.doHttpCall httpCall) p Global.debug fuel
                (Global.started p b m)) as [r1 m2] eqn:Hloop.
    destruct (Retry_unfold _ _ _ _ _ _ _ Hp Hloop) as (m3 & _ & Hw & Hc & Hret).
    rewrite Hret in Hrun. injection Hrun as Hr <-.
    destruct (ploop_run httpCall _ Global.classify Global_assigned
                Global.debug p Global_operation_run (classify_fuel)
                (fun _ _ _ => eq_refl) fuel _ _ _ Hloop)
      as (new & Hcalls & Hplay & Hloc & _ & Hres).
    cbn in Hcalls, Hplay. rewrite Hc, Hw.
    assert (Hlast : forall pre o, new = pre ++ [o] ->
              Global.response (locals m2) = fst o).
    { intros pre o ->. rewrite Hloc, fold_left_app. reflexivity. }
    destruct r1 as [[x|]| |]; try discriminate.
    + destruct Hres as (pre & o & -> & Hpre & _).
      exists pre, o. injection Hr as <- _ _.
      rewrite (Hlast pre o eq_refl).
      repeat split; auto.
      eapply Forall_impl; [exact Hpre|]. intros o'. apply goes_on_retryable.
    + destruct Hres as (pre & o & -> & Hpre & _).
      exists pre, o. rewrite (Hlast pre o eq_refl) in Hr.
      destruct (fst o) as [r|] eqn:Hfst; [|discriminate].
      injection Hr as <- _ _.
      repeat split; auto.
      eapply Forall_impl; [exact Hpre|]. intros o'. apply goes_on_retryable.
  - rewrite (Retry_nil_machine fuel m Hp) in Hrun. discriminate.
Qed.
End GlobalTrace.

Section GlobalMore.
Context {W : Type}.
Variable p : loc.
Variable httpCall : W -> outcome * W.

#[local] Abbreviation gmachine' := (machine W outcome Global.frame).

Lemma debug_sched (e : error) (wait : Z) (m : gmachine')
    (r : result unit) (m' : gmachine') :
  Global.debug e wait m = (r, m') -> scheduler m' = scheduler m.
Proof. intros [= _ <-]. reflexivity. Qed.

(** [Retry] is the loop and what follows it, on the machine [started]. *)
Lemma Retry_after_reset (fuel : nat) (m : gmachine') (b : ExponentialBackOff) :
  heap (scheduler m) !! p = Some b ->
  Global.Retry p httpCall fuel m =
    bind (retry_loop (Global.doHttpCall httpCall) p Global.debug fuel)
      Global_after_loop (Global.started p b m).
Proof.
  intros Hp. unfold Global.Retry, RetryNotify.
  unfold bind at 1. cbn [update_locals modify].
  unfold bind at 1. unfold bind at 1. unfold on_sched at 1.
  cbn [scheduler]. rewrite (Reset_ptr_run _ _ _ Hp).
  unfold bind at 2. reflexivity.
Qed.

(** X2: errors of the operation and 5xx responses, in any mix, are retried
    as long as the scheduler's budget lasts: when the operation gives the
    retryable outcomes [pre] and then a response whose status is not 5xx,
    [Retry] returns that response after [length pre + 1] attempts, without
    error for a 2xx status and with the (Permanent) error otherwise. *)
Theorem Retry_retries_until_response (fuel : nat) (m : gmachine')
    (b : ExponentialBackOff) (pre : list outcome) (r : Response) (w' : W) :
  heap (scheduler m) !! p = Some b ->
  generous (reset b) (clock (scheduler m)) (ticks (scheduler m)) (length pre) ->
  plays httpCall (world m) (pre ++ [(Some r, None)]) w' ->
  Forall retryable pre ->
  ~ 500 <= StatusCode r < 600 ->
  (length pre < fuel)%nat ->
  Z.of_nat (length pre) + 1 < 2 ^ 63 ->
  exists m' : gmachine',
    Global.Retry p httpCall fuel m =
      (Ok (Some r, Z.of_nat (length pre) + 1,
           if Z.quot (StatusCode r) 100 =? 2 then None
           else Some (BadCode
                        {| HttpResponseCode := StatusCode r;
                           Message := "(Permanent) HTTP response code "
                                      +:+ Itoa (StatusCode r) |})), m')
    /\ calls m' = calls m ++ pre ++ [(Some r, None)]
    /\ world m' = w'.
Proof.
  intros Hp Hgen Hplay Hpre H5 Hfuel Hbound.
  assert (Hc : Global.classify (Some r, None) = Ok None).
  { unfold Global.classify. cbn. rewrite <- quot100_5xx in H5.
    apply Z.eqb_neq in H5. rewrite H5. reflexivity. }
  destruct (loop_plays p httpCall pre (Global.started p b m) fuel (reset b)
              (Some r, None) w')
    as (m2 & Hloop & Hcalls & Hw & Hresp & Hatt); auto.
  - cbn. apply lookup_insert_eq.
  - eapply Forall_impl; [exact Hpre|]. intros o. apply goes_on_retryable.
  - destruct (Retry_unfold _ _ _ _ _ _ _ Hp Hloop)
      as (m' & _ & Hw' & Hcalls' & Hret).
    exists m'. rewrite Hret, Hresp, Hatt, Hcalls', Hw', Hcalls, Hw.
    cbn [fst Global.started locals Global.attempts calls].
    rewrite incr_counts by (rewrite Nat2Z.inj_succ; lia).
    rewrite Nat2Z.inj_succ. replace (Z.succ (Z.of_nat (length pre)))
      with (Z.of_nat (length pre) + 1) by lia.
    auto.
Qed.

(** X3: the running state an earlier call left in the scheduler behind
    [BackOffSettings] - its current interval and start time - has no
    influence on a call of [Retry]: the retry sequence starts from the reset
    scheduler. *)
Theorem Retry_ignores_stale_state (fuel : nat) (m : gmachine')
    (b : ExponentialBackOff) (cur : Z) (start : option Z) :
  heap (scheduler m) !! p = Some b ->
  Global.Retry p httpCall fuel
    (put_sched (set_heap (<[p := set_running cur start b]> (heap (scheduler m)))
                  (scheduler m)) m)
  = Global.Retry p httpCall fuel m.
Proof.
  intros Hp.
  rewrite (Retry_after_reset fuel m b Hp).
  rewrite (Retry_after_reset fuel _ (set_running cur start b))
    by (cbn; apply lookup_insert_eq).
  unfold Global.started. cbn [put_sched scheduler world calls set_heap heap].
  rewrite insert_insert_eq. reflexivity.
Qed.

(** The scheduler behind [BackOffSettings] is still there after [Retry],
    with its settings. *)
Lemma Retry_keeps_scheduler (fuel : nat) (m m' : gmachine')
    (r : result (option Response * Z * option error))
    (b : ExponentialBackOff) :
  Global.Retry p httpCall fuel m = (r, m') ->
  heap (scheduler m) !! p = Some b ->
  exists c : ExponentialBackOff,
    heap (scheduler m') !! p = Some c /\ same_settings b c.
Proof.
  intros Hrun Hp.
  destruct (retry_loop (Global.doHttpCall httpCall) p Global.debug fuel
              (Global.started p b m)) as [r1 m2] eqn:Hloop.
  destruct (Retry_unfold _ _ _ _ _ _ _ Hp Hloop) as (m3 & Hs & _ & _ & Hret).
  rewrite Hret in Hrun. injection Hrun as _ <-. rewrite Hs.
  destruct (ploop_run httpCall _ Global.classify Global_assigned
              Global.debug p (Global_operation_run httpCall)
              (classify_fuel) (fun _ _ _ => eq_refl) fuel _ _ _ Hloop)
    as (new & _ & _ & _ & Hset & _).
  destruct (Hset (reset b)) as (c & Hc & Hsame).
  { cbn. apply lookup_insert_eq. }
  exists c. split; [exact Hc|].
  refine (same_settings_trans _ (reset b) _ _ Hsame).
  unfold same_settings. repeat split.
Qed.

(** X4: [Retry] writes to the scheduler behind [BackOffSettings] and to no
    other: whatever the outcome of the run, every other cell of the heap is
    as before, and the scheduler behind [BackOffSettings] has kept its
    settings. *)
Theorem Retry_writes_only_BackOffSettings (fuel : nat) (m m' : gmachine')
    (r : result (option Response * Z * option error)) :
  Global.Retry p httpCall fuel m = (r, m') ->
  (forall l : loc,
      l <> p -> heap (scheduler m') !! l = heap (scheduler m) !! l)
  /\ (forall b : ExponentialBackOff,
        heap (scheduler m) !! p = Some b ->
        exists c : ExponentialBackOff,
          heap (scheduler m') !! p = Some c /\ same_settings b c).
Proof.
  intros Hrun. split.
  - intros l Hl. destruct (heap (scheduler m) !! p) as [b|] eqn:Hp.
    + destruct (retry_loop (Global.doHttpCall httpCall) p Global.debug fuel
                  (Global.started p b m)) as [r1 m2] eqn:Hloop.
      destruct (Retry_unfold _ _ _ _ _ _ _ Hp Hloop)
        as (m3 & Hs & _ & _ & Hret).
      rewrite Hret in Hrun. injection Hrun as _ <-. rewrite Hs.
      rewrite (retry_loop_frame (Global.doHttpCall httpCall) Global.debug p
                 (fun m0 r0 m0' => Global_operation_sched httpCall m0 m0' r0)
                 debug_sched fuel _ _ _ Hloop l Hl).
      cbn. apply lookup_insert_ne. congruence.
    + rewrite (Retry_nil_machine p httpCall fuel m Hp) in Hrun.
      injection Hrun as _ <-. reflexivity.
  - intros b Hp. exact (Retry_keeps_scheduler _ _ _ _ _ Hrun Hp).
Qed.

(** X7: calls of [Retry] compose: when the operation answers every call
    with a 2xx response, two calls in a row each return their response
    after one attempt and without error; the second call finds the
    scheduler the first one left and needs no reset in between. *)
Theorem Retry_twice_on_success (fuel1 fuel2 : nat) (m : gmachine')
    (b : ExponentialBackOff) :
  heap (scheduler m) !! p = Some b ->
  (forall w : W,
      exists (r : Response) (w' : W),
        httpCall w = ((Some r, None), w') /\ 200 <= StatusCode r < 300) ->
  (1 <= fuel1)%nat -> (1 <= fuel2)%nat ->
  exists (r1 r2 : Response) (m' : gmachine'),
    (let! x := Global.Retry p httpCall fuel1 in
     let! y := Global.Retry p httpCall fuel2 in
     ret (x, y)) m
    = (Ok ((Some r1, 1, None), (Some r2, 1, None)), m')
    /\ calls m' = calls m ++ [(Some r1, None); (Some r2, None)].
Proof.
  intros Hp Hok Hf1 Hf2.
  destruct fuel1 as [|fuel1]; [lia|]. destruct fuel2 as [|fuel2]; [lia|].
  assert (Hterm : forall (f : nat) (m0 : gmachine') (b0 : ExponentialBackOff),
             heap (scheduler m0) !! p = Some b0 ->
             exists r m1,
               Global.Retry p httpCall (S f) m0 = (Ok (Some r, 1, None), m1)
               /\ calls m1 = calls m0 ++ [(Some r, None)]).
  { intros f m0 b0 Hp0. destruct (Hok (world m0)) as (r & w' & Hcall & Hs).
    destruct (Retry_terminal p httpCall f m0 b0 r w' Hp0 Hcall)
      as (m1 & Hret & Hcalls & _).
    { rewrite quot100_5xx. lia. }
    apply quot100_2xx, Z.eqb_eq in Hs. rewrite Hs in Hret. eauto. }
  destruct (Hterm fuel1 m b Hp) as (r1 & m1 & Hret1 & Hcalls1).
  destruct (Retry_keeps_scheduler _ _ _ _ _ Hret1 Hp) as (c & Hc & _).
  destruct (Hterm fuel2 m1 c Hc) as (r2 & m2 & Hret2 & Hcalls2).
  exists r1, r2, m2. unfold bind at 1. rewrite Hret1.
  unfold bind at 1. rewrite Hret2. split; [reflexivity|].
  rewrite Hcalls2, Hcalls1, <- app_assoc. reflexivity.
Qed.

(** X6: with a nil [BackOffSettings], [Retry] panics before its first
    attempt: the operation is not invoked. *)
Theorem Retry_nil_BackOffSettings (fuel : nat) (m : gmachine') :
  heap (scheduler m) !! p = None ->
  fst (Global.Retry p httpCall fuel m) = Panic
  /\ calls (snd (Global.Retry p httpCall fuel m)) = calls m
  /\ world (snd (Global.Retry p httpCall fuel m)) = world m.
Proof.
  intros Hp. rewrite (Retry_nil_machine p httpCall fuel m Hp). auto.
Qed.
End GlobalMore.

(** ** The method-based Retry, attempt by attempt *)

Section MethodTrace.
Context {W : Type}.
Variable DumpResponse : Response -> string * option error.
Variable backOffSettings : loc.
Variable httpCall : W -> Method.outcome3 * W.

#[local] Abbreviation mmachine := (machine W Method.outcome3 Method.frame).
#[local] Abbreviation mcls := (MethodRun.classify DumpResponse).
#[local] Abbreviation mupd := (MethodRun.assigned DumpResponse).

Lemma Method_operation_run (m : mmachine) (o : Method.outcome3) (w : W) :
  httpCall (world m) = (o, w) ->
  Method.doHttpCall DumpResponse httpCall m = (mcls o, called mupd o w m).
Proof.
  intros Hcall.
  unfold Method.doHttpCall, bind, invoke. rewrite Hcall. cbn.
  unfold MethodRun.classify, called, MethodRun.assigned,
    MethodRun.permError_after, MethodRun.intermittent, MethodRun.permanent,
    MethodRun.out.
  destruct o as [[[r|] [te|]] [pe|]]; cbn; try reflexivity.
  destruct (DumpResponse r) as [raw readErr]. cbn.
  destruct (Z.quot (StatusCode r) 100 =? 5); [reflexivity|].
  destruct (Z.quot (StatusCode r) 100 =? 2); reflexivity.
Qed.

Lemma Method_cls_fuel (o : Method.outcome3) : mcls o <> OutOfFuel.
Proof.
  unfold MethodRun.classify.
  destruct o as [[[r|] [te|]] [pe|]]; cbn; try discriminate.
  destruct (Z.quot (StatusCode r) 100 =? 5); discriminate.
Qed.

Lemma Method_cls_panic (o : Method.outcome3) :
  mcls o = Panic <-> o = (None, None, None).
Proof.
  unfold MethodRun.classify.
  destruct o as [[[r|] [te|]] [pe|]]; cbn; split; try discriminate;
    try reflexivity.
  destruct (Z.quot (StatusCode r) 100 =? 5); discriminate.
Qed.

Lemma goes_on_retryable3 (o : Method.outcome3) :
  goes_on mcls o <-> retryable3 o.
Proof.
  unfold goes_on, retryable3, MethodRun.classify.
  destruct o as [[[r|] [te|]] [pe|]]; cbn;
    try (split; [eauto|intros _; eauto]; fail).
  - split; [intros [e [=]]|intros [[x [=]]|(_ & [=] & _)]].
  - destruct (Z.quot (StatusCode r) 100 =? 5) eqn:H5.
    + apply Z.eqb_eq, quot100_5xx in H5. split; eauto 10.
    + apply Z.eqb_neq in H5. rewrite quot100_5xx in H5. split.
      * intros [e [=]].
      * intros [[x [=]]|(_ & _ & r' & [= <-] & Hs)]. contradiction.
  - split; [intros [e [=]]|intros [[x [=]]|(_ & [=] & _)]].
  - split; [intros [e [=]]|intros [[x [=]]|(_ & _ & r' & [=] & _)]].
Qed.

(** The counter after the outcomes [l]. *)
Lemma Method_attempts_fold (l : list Method.outcome3) :
  forall f : Method.frame,
    Method.attempts (fold_left (fun f0 o => mupd o f0) l f)
    = Nat.iter (length l) Global.incr (Method.attempts f).
Proof.
  induction l as [|o l IH]; intros f; [reflexivity|].
  cbn [fold_left length]. rewrite IH, Nat.iter_succ_r. reflexivity.
Qed.

(** The method-based [Retry] is the loop and the final [switch], on the
    machine [started], with the copy of the receiver in a new cell. *)
Lemma Method_Retry_after_copy (fuel : nat) (m : mmachine)
    (c : ExponentialBackOff) :
  heap (scheduler m) !! backOffSettings = Some c ->
  Method.Retry DumpResponse backOffSettings httpCall fuel m =
    bind (retry_loop (Method.doHttpCall DumpResponse httpCall)
            (fresh (dom (heap (scheduler m)))) Method.logError fuel)
      Method_after_loop (MethodRun.started c m).
Proof.
  intros Hp. unfold Method.Retry.
  unfold bind at 1. cbn [update_locals modify].
  unfold bind at 1. unfold on_sched at 1. cbn [scheduler].
  unfold Method.copy. unfold bind at 1, load. rewrite Hp.
  cbn [bind gets store modify ret fst snd].
  unfold RetryNotify. unfold bind at 1. unfold bind at 1.
  unfold on_sched at 1. cbn [scheduler].
  rewrite (Reset_ptr_run _ _ c) by (cbn; apply lookup_insert_eq).
  unfold bind at 2. reflexivity.
Qed.

Lemma Method_Retry_nil (fuel : nat) (m : mmachine) :
  heap (scheduler m) !! backOffSettings = None ->
  Method.Retry DumpResponse backOffSettings httpCall fuel m =
    (Panic, {| scheduler := scheduler m; world := world m; calls := calls m;
               locals := {| Method.response := None; Method.tempError := None;
                            Method.permError := None;
                            Method.attempts := 0 |} |}).
Proof.
  intros Hp. unfold Method.Retry.
  unfold bind at 1. cbn [update_locals modify].
  unfold bind at 1. unfold on_sched at 1. cbn [scheduler].
  unfold Method.copy. unfold bind at 1, load. rewrite Hp. reflexivity.
Qed.

(** Every run of the method-based [Retry] on a valid receiver. *)
Lemma Method_Retry_run (fuel : nat) (m m' : mmachine)
    (c : ExponentialBackOff)
    (r : result (option Response * Z * option error)) :
  heap (scheduler m) !! backOffSettings = Some c ->
  Method.Retry DumpResponse backOffSettings httpCall fuel m = (r, m') ->
  exists new : list Method.outcome3,
    calls m' = calls m ++ new
    /\ plays httpCall (world m) new (world m')
    /\ match r with
       | Ok (resp, n, e) =>
           exists pre o,
             new = pre ++ [o] /\ Forall (goes_on mcls) pre
             /\ (exists e0, mcls o = Ok e0)
             /\ resp = fst (fst o)
             /\ n = Nat.iter (length new) Global.incr 0
             /\ e = MethodRun.verdict DumpResponse o
       | Panic =>
           exists pre,
             new = pre ++ [(None, None, None)] /\ Forall (goes_on mcls) pre
       | OutOfFuel => Forall (goes_on mcls) new /\ length new = fuel
       end.
Proof.
  intros Hp Hrun. rewrite (Method_Retry_after_copy fuel m c Hp) in Hrun.
  unfold bind at 1 in Hrun.
  destruct (retry_loop (Method.doHttpCall DumpResponse httpCall)
              (fresh (dom (heap (scheduler m)))) Method.logError fuel
              (MethodRun.started c m)) as [r1 m2] eqn:Hloop.
  destruct (ploop_run httpCall _ mcls mupd Method.logError _
              Method_operation_run Method_cls_fuel (fun _ _ _ => eq_refl)
              fuel _ _ _ Hloop)
    as (new & Hcalls & Hplay & Hloc & _ & Hres).
  cbn in Hcalls, Hplay. exists new.
  destruct r1 as [e1| |].
  - destruct Hres as (pre & o & -> & Hpre & Ho & _).
    assert (Hatt := f_equal Method.attempts Hloc).
    rewrite Method_attempts_fold in Hatt. cbn in Hatt.
    rewrite fold_left_app in Hloc. cbn in Hloc.
    unfold Method_after_loop, bind, get_locals, gets in Hrun.
    rewrite Hatt in Hrun. rewrite Hloc in Hrun.
    cbn [MethodRun.assigned Method.permError Method.tempError
         Method.response Method.attempts] in Hrun.
    destruct (MethodRun.permError_after DumpResponse o) as [pe|] eqn:Hpe.
    + injection Hrun as <- <-. split; [exact Hcalls|]. split; [exact Hplay|].
      exists pre, o. unfold MethodRun.verdict. rewrite Hpe.
      repeat split; eauto.
    + destruct (snd (fst o)) as [te|] eqn:Hte.
      * injection Hrun as <- <-. split; [exact Hcalls|].
        split; [exact Hplay|]. exists pre, o.
        unfold MethodRun.verdict. rewrite Hpe, Hte. repeat split; eauto.
      * injection Hrun as <- <-. split; [exact Hcalls|].
        split; [exact Hplay|]. exists pre, o.
        unfold MethodRun.verdict. rewrite Hpe, Hte. repeat split; eauto.
  - injection Hrun as <- <-. split; [exact Hcalls|]. split; [exact Hplay|].
    destruct Hres as (pre & o & -> & Hpre & [Ho|[_ Hnil]]).
    + apply Method_cls_panic in Ho. subst o. eauto.
    + cbn in Hnil. rewrite lookup_insert_eq in Hnil. discriminate.
  - injection Hrun as <- <-. split; [exact Hcalls|]. split; [exact Hplay|].
    exact Hres.
Qed.
End MethodTrace.

(** ** Enough fuel gives the result *)

Section PointerLoopProgress.
Context {W Out L : Type}.
Variable httpCall : W -> Out * W.
Variable operation : M (machine W Out L) (option error).
Variable cls : Out -> result (option error).
Variable upd : Out -> L -> L.
Variable notify : error -> Z -> M (machine W Out L) unit.
Variable q : loc.

Hypothesis operation_run :
  forall m o w,
    httpCall (world m) = (o, w) -> operation m = (cls o, called upd o w m).
Hypothesis notify_run : forall e wait m, notify e wait m = (Ok tt, m).

(** Outcomes that make the loop go on, then one that ends it, under a
    budget generous enough for them. *)
Lemma ploop_plays (pre : list Out) :
  forall (m : machine W Out L) (fuel : nat) (c : ExponentialBackOff)
         (o : Out) (w' : W),
    heap (scheduler m) !! q = Some c ->
    generous c (clock (scheduler m)) (ticks (scheduler m)) (length pre) ->
    plays httpCall (world m) (pre ++ [o]) w' ->
    Forall (goes_on cls) pre ->
    cls o = Ok None ->
    (length pre < fuel)%nat ->
    exists m' : machine W Out L,
      retry_loop operation q notify fuel m = (Ok None, m')
      /\ calls m' = calls m ++ pre ++ [o]
      /\ world m' = w'
      /\ locals m' = fold_left (fun l o0 => upd o0 l) (pre ++ [o]) (locals m).
Proof.
  induction pre as [|o1 pre IH];
    intros m fuel c o w' Hq Hgen Hplay Hpre Ho Hfuel;
    (destruct fuel as [|fuel]; [cbn in Hfuel; lia|]).
  - destruct Hplay as (w1 & Hcall & ->).
    rewrite (ploop_end httpCall operation cls upd notify q operation_run
               fuel m o w1 Hcall (or_introl Ho)), Ho.
    eexists. split; [reflexivity|]. cbn. repeat split.
  - destruct Hplay as (w1 & Hcall & Hplay).
    inversion Hpre as [|? ? [e1 He1] Hpre']; subst.
    destruct (generous_next c (clock (scheduler m)) (ticks (scheduler m))
                (length pre)
                (rand (scheduler m) (draws (scheduler m))) Hgen)
      as (wait & Hwait & Hgen').
    rewrite (ploop_retry httpCall operation cls upd notify q operation_run
               notify_run fuel m o1 w1 e1 c wait Hcall He1 Hq Hwait).
    destruct (IH (put_sched (slept_on wait (after_next q c (scheduler m)))
                    (called upd o1 w1 m)) fuel _ o w'
                (lookup_insert_eq _ _ _) Hgen' Hplay Hpre' Ho)
      as (m' & Hloop & Hcalls & Hw & Hloc).
    { cbn in Hfuel. lia. }
    exists m'. split; [exact Hloop|]. cbn in Hcalls, Hloc.
    rewrite <- app_assoc in Hcalls. repeat split; auto.
Qed.
End PointerLoopProgress.

(** ** What the method-based Retry returns *)

Section MethodResults.
Context {W : Type}.
Variable DumpResponse : Response -> string * option error.
Variable backOffSettings : loc.
Variable httpCall : W -> Method.outcome3 * W.

#[local] Abbreviation mmachine' := (machine W Method.outcome3 Method.frame).
#[local] Abbreviation MRetry :=
  (Method.Retry DumpResponse backOffSettings httpCall).

(** A run that returned had a valid receiver. *)
Lemma Method_Retry_Ok_receiver (fuel : nat) (m m' : mmachine')
    (x : option Response * Z * option error) :
  MRetry fuel m = (Ok x, m') ->
  exists c, heap (scheduler m) !! backOffSettings = Some c.
Proof.
  intros Hrun. destruct (heap (scheduler m) !! backOffSettings) as [c|] eqn:Hp.
  - eauto.
  - rewrite (Method_Retry_nil _ _ _ fuel m Hp) in Hrun. discriminate.
Qed.

(** X8: the error the method-based [Retry] returns is decided by its last
    attempt: the permanent error of the operation if there is one, else its
    temporary error, else - by the status of the response - the (Permanent)
    error with the dump of the response for a status outside 2xx and 5xx,
    and nil for 2xx and for 5xx alike: the (Intermittent) error of a 5xx
    response is handed to the retry loop only and is not returned. *)
Theorem Method_Retry_error (fuel : nat) (m m' : mmachine')
    (resp : option Response) (n : Z) (e : option error) :
  MRetry fuel m = (Ok (resp, n, e), m') ->
  exists o : Method.outcome3,
    last (calls m') = Some o
    /\ resp = fst (fst o)
    /\ match o with
       | (_, _, Some pe) => e = Some pe
       | (_, Some te, None) => e = Some te
       | (Some r, None, None) =>
           e = if (Z.quot (StatusCode r) 100 =? 5)
                  || (Z.quot (StatusCode r) 100 =? 2)
               then None
               else Some (BadCode
                      {| HttpResponseCode := StatusCode r;
                         Message :=
                           "(Permanent) HTTP response code "
                           +:+ Itoa (StatusCode r) +:+ Method.newline
                           +:+ match snd (DumpResponse r) with
                               | None => fst (DumpResponse r)
                               | Some _ => EmptyString
                               end |})
       | (None, None, None) => False
       end.
Proof.
  intros Hrun. destruct (Method_Retry_Ok_receiver _ _ _ _ Hrun) as [c Hp].
  destruct (Method_Retry_run _ _ _ _ _ _ _ _ Hp Hrun)
    as (new & Hcalls & _ & pre & o & -> & _ & [e0 Ho] & -> & _ & ->).
  exists o. rewrite Hcalls, app_assoc, last_snoc.
  split; [reflexivity|]. split; [reflexivity|].
  unfold MethodRun.verdict, MethodRun.permError_after.
  destruct o as [[[r|] [te|]] [pe|]]; cbn; try reflexivity.
  - destruct (Z.quot (StatusCode r) 100 =? 5); [reflexivity|].
    destruct (Z.quot (StatusCode r) 100 =? 2); reflexivity.
  - rewrite (proj2 (Method_cls_panic DumpResponse (None, None, None)) eq_refl)
      in Ho. discriminate.
Qed.

(** X9: the attempt count the method-based [Retry] returns is the number of
    times it invoked the operation, and at least 1 (for a run of fewer than
    2^63 invocations). *)
Theorem Method_Retry_attempts_count_calls (fuel : nat) (m m' : mmachine')
    (resp : option Response) (n : Z) (e : option error) :
  MRetry fuel m = (Ok (resp, n, e), m') ->
  Z.of_nat (length (calls m')) - Z.of_nat (length (calls m)) < 2 ^ 63 ->
  n = Z.of_nat (length (calls m')) - Z.of_nat (length (calls m)) /\ 1 <= n.
Proof.
  intros Hrun. destruct (Method_Retry_Ok_receiver _ _ _ _ Hrun) as [c Hp].
  destruct (Method_Retry_run _ _ _ _ _ _ _ _ Hp Hrun)
    as (new & Hcalls & _ & pre & o & -> & _ & _ & _ & -> & _).
  rewrite Hcalls, !length_app. intros Hbound.
  cbn [length] in *. rewrite incr_counts by lia. lia.
Qed.

(** X10: the method-based [Retry] invokes the operation one attempt after
    the other, from world to world, and goes on to the next attempt exactly
    after a temporary error - even one that came with a permanent error -
    or after a 5xx response that came without any error; the response
    returned is that of the last attempt. *)
Theorem Method_Retry_attempts_in_sequence (fuel : nat) (m m' : mmachine')
    (resp : option Response) (n : Z) (e : option error) :
  MRetry fuel m = (Ok (resp, n, e), m') ->
  exists (pre : list Method.outcome3) (o : Method.outcome3),
    calls m' = calls m ++ pre ++ [o]
    /\ plays httpCall (world m) (pre ++ [o]) (world m')
    /\ Forall retryable3 pre
    /\ resp = fst (fst o).
Proof.
  intros Hrun. destruct (Method_Retry_Ok_receiver _ _ _ _ Hrun) as [c Hp].
  destruct (Method_Retry_run _ _ _ _ _ _ _ _ Hp Hrun)
    as (new & Hcalls & Hplay & pre & o & -> & Hpre & _ & -> & _).
  exists pre, o. repeat split; auto.
  eapply Forall_impl; [exact Hpre|]. intros o'. apply goes_on_retryable3.
Qed.

(** X11: a permanent error of the operation, returned without a temporary
    one, ends the method-based [Retry] at that attempt: the error is handed
    back as it is with the response that came with it; the response is not
    examined, so a nil response does not make [Retry] panic. *)
Theorem Method_Retry_permanent_error_ends (fuel : nat) (m : mmachine')
    (c : ExponentialBackOff) (resp : option Response) (pe : error) (w1 : W) :
  heap (scheduler m) !! backOffSettings = Some c ->
  httpCall (world m) = ((resp, None, Some pe), w1) ->
  (1 <= fuel)%nat ->
  exists m' : mmachine',
    MRetry fuel m = (Ok (resp, 1, Some pe), m')
    /\ calls m' = calls m ++ [(resp, None, Some pe)]
    /\ world m' = w1.
Proof.
  intros Hp Hcall Hfuel. destruct fuel as [|fuel]; [lia|].
  rewrite (Method_Retry_after_copy _ _ _ (S fuel) m c Hp). unfold bind at 1.
  rewrite (ploop_end httpCall _ (MethodRun.classify DumpResponse)
             (MethodRun.assigned DumpResponse) Method.logError _
             (Method_operation_run DumpResponse httpCall)
             fuel (MethodRun.started c m) (resp, None, Some pe) w1 Hcall
             (or_introl eq_refl)).
  eexists. split; [reflexivity|]. split; reflexivity.
Qed.

(** X12: on a valid receiver the method-based [Retry] panics exactly when
    one of its invocations of the operation returned no response and no
    error of either kind. *)
Theorem Method_Retry_panics_on_nil_response (fuel : nat) (m m' : mmachine')
    (c : ExponentialBackOff) (new : list Method.outcome3)
    (r : result (option Response * Z * option error)) :
  heap (scheduler m) !! backOffSettings = Some c ->
  MRetry fuel m = (r, m') ->
  calls m' = calls m ++ new ->
  r = Panic <-> In (None, None, None) new.
Proof.
  intros Hp Hrun Hnew.
  destruct (Method_Retry_run _ _ _ _ _ _ _ _ Hp Hrun)
    as (new' & Hcalls & _ & Hr).
  rewrite Hcalls in Hnew. apply app_inv_head in Hnew. subst new'.
  assert (Hnot : forall l,
             Forall (goes_on (MethodRun.classify DumpResponse)) l ->
             ~ In (None, None, None) l).
  { intros l Hl Hin. rewrite List.Forall_forall in Hl.
    destruct (Hl _ Hin) as [x Hx]. discriminate. }
  destruct r as [[[resp n] e]| |].
  - split; [discriminate|]. intros Hin. exfalso.
    destruct Hr as (pre & o & -> & Hpre & [e0 Ho] & _).
    apply in_app_iff in Hin. destruct Hin as [Hin|[->|[]]].
    + exact (Hnot _ Hpre Hin).
    + discriminate.
  - split; [|reflexivity]. intros _. destruct Hr as (pre & -> & _).
    apply in_app_iff. right. left. reflexivity.
  - split; [discriminate|]. intros Hin. exfalso.
    exact (Hnot _ (proj1 Hr) Hin).
Qed.

(** X13: temporary errors and 5xx responses, in any mix, are retried as
    long as the budget of the copied scheduler lasts: when the operation
    gives the retryable outcomes [pre] and then, without any error, a
    response whose status is not 5xx, the method-based [Retry] returns that
    response after [length pre + 1] attempts, without error for a 2xx status
    and with the (Permanent) error otherwise. *)
Theorem Method_Retry_retries_until_response (fuel : nat) (m : mmachine')
    (c : ExponentialBackOff) (pre : list Method.outcome3) (r : Response)
    (w' : W) :
  heap (scheduler m) !! backOffSettings = Some c ->
  generous (reset c) (clock (scheduler m)) (ticks (scheduler m)) (length pre) ->
  plays httpCall (world m) (pre ++ [(Some r, None, None)]) w' ->
  Forall retryable3 pre ->
  ~ 500 <= StatusCode r < 600 ->
  (length pre < fuel)%nat ->
  Z.of_nat (length pre) + 1 < 2 ^ 63 ->
  exists m' : mmachine',
    MRetry fuel m =
      (Ok (Some r, Z.of_nat (length pre) + 1,
           if Z.quot (StatusCode r) 100 =? 2 then None
           else Some (MethodRun.permanent DumpResponse r)), m')
    /\ calls m' = calls m ++ pre ++ [(Some r, None, None)]
    /\ world m' = w'.
Proof.
  intros Hp Hgen Hplay Hpre H5 Hfuel Hbound.
  rewrite <- quot100_5xx in H5. apply Z.eqb_neq in H5.
  assert (Hc : MethodRun.classify DumpResponse (Some r, None, None) = Ok None).
  { unfold MethodRun.classify. cbn. rewrite H5. reflexivity. }
  destruct (ploop_plays httpCall _ (MethodRun.classify DumpResponse)
              (MethodRun.assigned DumpResponse) Method.logError
              (fresh (dom (heap (scheduler m))))
              (Method_operation_run DumpResponse httpCall)
              (fun _ _ _ => eq_refl) pre (MethodRun.started c m) fuel
              (reset c) (Some r, None, None) w')
    as (m2 & Hloop & Hcalls & Hw & Hloc); auto.
  - cbn. apply lookup_insert_eq.
  - eapply Forall_impl; [exact Hpre|]. intros o. apply goes_on_retryable3.
  - rewrite (Method_Retry_after_copy _ _ _ fuel m c Hp). unfold bind at 1.
    rewrite Hloop. unfold Method_after_loop, bind, get_locals, gets.
    assert (Hatt := f_equal Method.attempts Hloc).
    rewrite Method_attempts_fold in Hatt. cbn [MethodRun.started locals
      Method.attempts] in Hatt.
    rewrite length_app, Nat.add_comm in Hatt. cbn [length Nat.add] in Hatt.
    rewrite incr_counts in Hatt by (rewrite Nat2Z.inj_succ; lia).
    rewrite Nat2Z.inj_succ in Hatt.
    rewrite fold_left_app in Hloc. cbn [fold_left] in Hloc.
    rewrite Hatt. rewrite Hloc.
    cbn [MethodRun.assigned Method.permError Method.tempError
         Method.response Method.attempts fst snd].
    unfold MethodRun.permError_after. cbn [fst snd]. rewrite H5.
    replace (Z.succ (Z.of_nat (length pre)))
      with (Z.of_nat (length pre) + 1) by lia.
    destruct (Z.quot (StatusCode r) 100 =? 2);
      (eexists; split; [reflexivity|]; split; assumption).
Qed.
End MethodResults.

(** ** The stub handler *)

Section HandlerQueue.
Import Handler.

Lemma queue_QueuedResponses (codes : list Z) :
  forall handler : MyHandler,
    QueuedResponses (queue codes handler)
    = QueuedResponses handler ++ map fake codes.
Proof.
  unfold queue. induction codes as [|c codes IH]; intros handler; cbn.
  - rewrite app_nil_r. reflexivity.
  - rewrite IH. cbn. rewrite <- app_assoc. reflexivity.
Qed.

Lemma serve_QueuedResponses (n : nat) :
  forall handler : MyHandler,
    QueuedResponses (fst (serve n handler))
    = skipn n (QueuedResponses handler)
    /\ snd (serve n handler)
       = map answer (firstn n (QueuedResponses handler))
         ++ repeat [] (n - length (QueuedResponses handler)).
Proof.
  induction n as [|n IH]; intros handler; [split; reflexivity|].
  cbn [serve]. unfold ServeHTTP.
  destruct handler as [[|r rest]]; cbn [QueuedResponses].
  - specialize (IH {| QueuedResponses := [] |}).
    destruct (serve n {| QueuedResponses := [] |}) as [h2 ws].
    cbn [fst snd QueuedResponses] in *. destruct IH as [IH1 IH2].
    rewrite IH1, IH2. rewrite skipn_nil, firstn_nil. cbn [length].
    rewrite !Nat.sub_0_r. split; reflexivity.
  - specialize (IH {| QueuedResponses := rest |}).
    destruct (serve n {| QueuedResponses := rest |}) as [h2 ws].
    cbn [fst snd QueuedResponses] in *. destruct IH as [IH1 IH2].
    rewrite IH1, IH2. split; reflexivity.
Qed.

(** X14: the stub handler answers first in, first out. After the status
    codes [codes] have been queued, the next requests are answered with what
    was queued before, then with [codes] in their order, each with its
    status and the body made for it; a request that finds the queue empty
    gets nothing written and leaves the queue empty. *)
Theorem Handler_serves_in_order (handler : MyHandler) (codes : list Z)
    (n : nat) :
  let all := QueuedResponses handler ++ map fake codes in
  QueuedResponses (fst (serve n (queue codes handler))) = skipn n all
  /\ snd (serve n (queue codes handler))
     = map answer (firstn n all) ++ repeat [] (n - length all).
Proof.
  cbn zeta. rewrite <- queue_QueuedResponses. apply serve_QueuedResponses.
Qed.

(** X15: [ClearResponseQueue] forgets whatever was queued: requests after
    it are answered with the codes queued since, in their order, and by
    nothing written once these are used up - as on a handler just made by
    [NewMyHandler]. *)
Theorem Handler_clear_then_queue (handler : MyHandler) (codes : list Z)
    (n : nat) :
  serve n (queue codes (ClearResponseQueue handler))
  = serve n (queue codes NewMyHandler)
  /\ snd (serve n (queue codes (ClearResponseQueue handler)))
     = map (fun c => [WriteHeader c; WriteString (TestSetup.body c)])
         (firstn n codes)
       ++ repeat [] (n - length codes).
Proof.
  split; [reflexivity|].
  destruct (serve_QueuedResponses n (queue codes (ClearResponseQueue handler)))
    as [_ ->].
  rewrite queue_QueuedResponses. cbn [ClearResponseQueue QueuedResponses app].
  rewrite length_map, firstn_map, map_map. reflexivity.
Qed.
End HandlerQueue.

(** ** A nil receiver *)

(** X16: on a nil receiver the method-based [Retry] panics where it copies
    the receiver, before its first attempt: the operation is not invoked,
    and no scheduler is made or changed. *)
Theorem Method_Retry_nil_receiver {W : Type}
    (DumpResponse : Response -> string * option error) (backOffSettings : loc)
    (httpCall : W -> Method.outcome3 * W) (fuel : nat)
    (m : machine W Method.outcome3 Method.frame) :
  heap (scheduler m) !! backOffSettings = None ->
  fst (Method.Retry DumpResponse backOffSettings httpCall fuel m) = Panic
  /\ calls (snd (Method.Retry DumpResponse backOffSettings httpCall fuel m))
     = calls m
  /\ world (snd (Method.Retry DumpResponse backOffSettings httpCall fuel m))
     = world m
  /\ scheduler (snd (Method.Retry DumpResponse backOffSettings httpCall fuel m))
     = scheduler m.
Proof.
  intros Hp. rewrite (Method_Retry_nil _ _ _ fuel m Hp). auto.
Qed.

(** ** Runs of scripted operations *)

Lemma Retry_attempts_in_sequence_witness :
  exists (pre : list outcome) (o : outcome),
    calls (snd run_script)
    = calls (script_bench settings ms (script found)) ++ pre ++ [o]
    /\ plays (replay refused) (world (script_bench settings ms (script found)))
         (pre ++ [o]) (world (snd run_script))
    /\ Forall retryable pre
    /\ Some found = fst o.
Proof.
  apply (Retry_attempts_in_sequence 1%positive (replay refused) 10
           (script_bench settings ms (script found)) (snd run_script)
           (Some found) 3 None).
  vm_compute. reflexivity.
Defined.

Lemma Retry_retries_until_response_witness :
  exists m',
    Global.Retry 1%positive (replay refused) 3
      (script_bench settings ms (script found))
    = (Ok (Some found, 3, None), m')
    /\ calls m' = calls (script_bench settings ms (script found))
                  ++ [refused; (Some busy, None)] ++ [(Some found, None)]
    /\ world m' = [].
Proof.
  apply (Retry_retries_until_response 1%positive (replay refused) 3
           (script_bench settings ms (script found)) settings
           [refused; (Some busy, None)] found []).
  - reflexivity.
  - right. intros k Hk. cbn in Hk. cbn. unfold ms. lia.
  - cbn. eexists. split; [reflexivity|]. eexists. split; [reflexivity|].
    eexists. split; reflexivity.
  - constructor; [left; eexists; reflexivity|].
    constructor; [|constructor].
    right. split; [reflexivity|]. exists busy. cbn. split; [reflexivity|lia].
  - cbn. lia.
  - cbn. lia.
  - cbn. lia.
Defined.

Lemma Retry_ignores_stale_state_witness :
  Global.Retry 1%positive httpGet 10
    (put_sched
       (set_heap
          (<[1%positive := set_running 5000000 (Some 0) settings]>
             (heap (scheduler (bench settings ms [500; 200]))))
          (scheduler (bench settings ms [500; 200])))
       (bench settings ms [500; 200]))
  = Global.Retry 1%positive httpGet 10 (bench settings ms [500; 200]).
Proof.
  apply (Retry_ignores_stale_state 1%positive httpGet 10
           (bench settings ms [500; 200]) settings 5000000 (Some 0)).
  reflexivity.
Defined.

Lemma Retry_writes_only_BackOffSettings_witness :
  (forall l : loc,
     l <> 1%positive ->
     heap (scheduler (snd run_500_200)) !! l
     = heap (scheduler (bench settings ms [500; 200])) !! l)
  /\ forall b : ExponentialBackOff,
       heap (scheduler (bench settings ms [500; 200])) !! 1%positive = Some b ->
       exists c : ExponentialBackOff,
         heap (scheduler (snd run_500_200)) !! 1%positive = Some c
         /\ same_settings b c.
Proof.
  apply (Retry_writes_only_BackOffSettings 1%positive httpGet 10
           (bench settings ms [500; 200]) (snd run_500_200)
           (fst run_500_200)).
  vm_compute. reflexivity.
Defined.

Lemma Retry_attempts_waits_witness :
  2 = Z.of_nat (length (slept (scheduler (snd run_500_200))))
      - Z.of_nat (length (slept (scheduler (bench settings ms [500; 200]))))
      + 1.
Proof.
  apply (Retry_attempts_waits 1%positive httpGet 10
           (bench settings ms [500; 200]) (snd run_500_200)
           (Some {| StatusCode := 200; Body := body 200 |}) 2 None).
  - vm_compute. reflexivity.
  - vm_compute. reflexivity.
Defined.

Lemma Retry_nil_BackOffSettings_witness :
  fst (Global.Retry 2%positive httpGet 10 (bench settings ms [200])) = Panic
  /\ calls (snd (Global.Retry 2%positive httpGet 10 (bench settings ms [200])))
     = calls (bench settings ms [200])
  /\ world (snd (Global.Retry 2%positive httpGet 10 (bench settings ms [200])))
     = world (bench settings ms [200]).
Proof.
  apply (Retry_nil_BackOffSettings 2%positive httpGet 10
           (bench settings ms [200])).
  reflexivity.
Defined.

Lemma Retry_twice_on_success_witness :
  exists (r1 r2 : Response) (m' : machine unit outcome Global.frame),
    (let! x := Global.Retry 1%positive httpGetOK 1 in
     let! y := Global.Retry 1%positive httpGetOK 1 in
     ret (x, y)) (bench settings ms tt)
    = (Ok ((Some r1, 1, None), (Some r2, 1, None)), m')
    /\ calls m' = calls (bench settings ms tt)
                  ++ [(Some r1, None); (Some r2, None)].
Proof.
  apply (Retry_twice_on_success 1%positive httpGetOK 1 1
           (bench settings ms tt) settings).
  - reflexivity.
  - intros w. exists found, w. split; [reflexivity|]. cbn. lia.
  - lia.
  - lia.
Defined.

Lemma Method_Retry_error_witness :
  exists o : Method.outcome3,
    last (calls (snd run_script3)) = Some o
    /\ Some missing = fst (fst o)
    /\ match o with
       | (_, _, Some pe) => Some (MethodRun.permanent Dump missing) = Some pe
       | (_, Some te, None) => Some (MethodRun.permanent Dump missing) = Some te
       | (Some r, None, None) =>
           Some (MethodRun.permanent Dump missing)
           = if (Z.quot (StatusCode r) 100 =? 5)
                || (Z.quot (StatusCode r) 100 =? 2)
             then None
             else Some (BadCode
                    {| HttpResponseCode := StatusCode r;
                       Message :=
                         "(Permanent) HTTP response code "
                         +:+ Itoa (StatusCode r) +:+ Method.newline
                         +:+ match snd (Dump r) with
                             | None => fst (Dump r)
                             | Some _ => EmptyString
                             end |})
       | (None, None, None) => False
       end.
Proof.
  apply (Method_Retry_error Dump 1%positive (replay refused3) 10
           (script_bench3 settings ms (script3 missing)) (snd run_script3)
           (Some missing) 3 (Some (MethodRun.permanent Dump missing))).
  vm_compute. reflexivity.
Defined.

Lemma Method_Retry_attempts_count_calls_witness :
  3 = Z.of_nat (length (calls (snd run_script3)))
      - Z.of_nat (length (calls (script_bench3 settings ms (script3 missing))))
  /\ 1 <= 3.
Proof.
  apply (Method_Retry_attempts_count_calls Dump 1%positive (replay refused3)
           10 (script_bench3 settings ms (script3 missing)) (snd run_script3)
           (Some missing) 3 (Some (MethodRun.permanent Dump missing))).
  - vm_compute. reflexivity.
  - vm_compute. reflexivity.
Defined.

Lemma Method_Retry_attempts_in_sequence_witness :
  exists (pre : list Method.outcome3) (o : Method.outcome3),
    calls (snd run_script3)
    = calls (script_bench3 settings ms (script3 missing)) ++ pre ++ [o]
    /\ plays (replay refused3)
         (world (script_bench3 settings ms (script3 missing)))
         (pre ++ [o]) (world (snd run_script3))
    /\ Forall retryable3 pre
    /\ Some missing = fst (fst o).
Proof.
  apply (Method_Retry_attempts_in_sequence Dump 1%positive (replay refused3)
           10 (script_bench3 settings ms (script3 missing)) (snd run_script3)
           (Some missing) 3 (Some (MethodRun.permanent Dump missing))).
  vm_compute. reflexivity.
Defined.

Lemma Method_Retry_permanent_error_ends_witness :
  exists m',
    Method.Retry Dump 1%positive (replay refused3) 1
      (script_bench3 settings ms [malformed; (Some found, None, None)])
    = (Ok (None, 1, Some (TransportError "unsupported protocol scheme")), m')
    /\ calls m'
       = calls (script_bench3 settings ms
                  [malformed; (Some found, None, None)])
         ++ [(None, None,
              Some (TransportError "unsupported protocol scheme"))]
    /\ world m' = [(Some found, None, None)].
Proof.
  apply (Method_Retry_permanent_error_ends Dump 1%positive (replay refused3)
           1 (script_bench3 settings ms [malformed; (Some found, None, None)])
           settings).
  - reflexivity.
  - reflexivity.
  - lia.
Defined.

Lemma Method_Retry_panics_on_nil_response_witness :
  fst run_nothing3 = Panic
  <-> In (None, None, None) [refused3; (None, None, None)].
Proof.
  apply (Method_Retry_panics_on_nil_response Dump 1%positive
           (replay refused3) 10
           (script_bench3 settings ms [refused3; (None, None, None)])
           (snd run_nothing3) settings).
  - reflexivity.
  - vm_compute. reflexivity.
  - vm_compute. reflexivity.
Defined.

Lemma Method_Retry_retries_until_response_witness :
  exists m',
    Method.Retry Dump 1%positive (replay refused3) 3
      (script_bench3 settings ms (script3 missing))
    = (Ok (Some missing, 3, Some (MethodRun.permanent Dump missing)), m')
    /\ calls m' = calls (script_bench3 settings ms (script3 missing))
                  ++ [refused3; (Some busy, None, None)]
                  ++ [(Some missing, None, None)]
    /\ world m' = [].
Proof.
  apply (Method_Retry_retries_until_response Dump 1%positive
           (replay refused3) 3 (script_bench3 settings ms (script3 missing))
           settings [refused3; (Some busy, None, None)] missing []).
  - reflexivity.
  - right. intros k Hk. cbn in Hk. cbn. unfold ms. lia.
  - cbn. eexists. split; [reflexivity|]. eexists. split; [reflexivity|].
    eexists. split; reflexivity.
  - constructor; [left; eexists; reflexivity|].
    constructor; [|constructor].
    right. split; [reflexivity|]. split; [reflexivity|].
    exists busy. cbn. split; [reflexivity|lia].
  - cbn. lia.
  - cbn. lia.
  - cbn. lia.
Defined.

Lemma Method_Retry_nil_receiver_witness :
  fst (Method.Retry Dump 2%positive httpGet3 10 (bench3 settings ms [200]))
  = Panic
  /\ calls (snd (Method.Retry Dump 2%positive httpGet3 10
                   (bench3 settings ms [200])))
     = calls (bench3 settings ms [200])
  /\ world (snd (Method.Retry Dump 2%positive httpGet3 10
                   (bench3 settings ms [200])))
     = world (bench3 settings ms [200])
  /\ scheduler (snd (Method.Retry Dump 2%positive httpGet3 10
                       (bench3 settings ms [200])))
     = scheduler (bench3 settings ms [200]).
Proof.
  apply (Method_Retry_nil_receiver Dump 2%positive httpGet3 10
           (bench3 settings ms [200])).
  reflexivity.
Defined.

(** ** The two generations on the same operation *)

Section Generations.
Context {W : Type}.
Variable DumpResponse : Response -> string * option error.
Variable httpCall : W -> outcome * W.

#[local] Abbreviation gen1 := (machine W outcome Global.frame).
#[local] Abbreviation gen2 := (machine W Method.outcome3 Method.frame).

Lemma asTempError_run (w w' : W) (o : outcome) :
  httpCall w = (o, w') -> asTempError httpCall w = (asOutcome3 o, w').
Proof. intros Hcall. unfold asTempError. rewrite Hcall. reflexivity. Qed.

(** The two closures agree on whether the loop goes on. *)
Lemma classify_agree (o : outcome) :
  match Global.classify o with
  | Ok (Some _) =>
      exists e2, MethodRun.classify DumpResponse (asOutcome3 o) = Ok (Some e2)
  | r => MethodRun.classify DumpResponse (asOutcome3 o) = r
  end.
Proof.
  unfold Global.classify, MethodRun.classify, asOutcome3.
  destruct o as [[r|] [x|]]; cbn; eauto.
  destruct (Z.quot (StatusCode r) 100 =? 5); eauto.
Qed.

(** In step at the start, the two loops make the same attempts. *)
Lemma loops_agree (p q : loc) (fuel : nat) :
  forall (m1 m1' : gen1) (m2 : gen2) (r1 : result (option error)),
    in_step p q m1 m2 ->
    retry_loop (Global.doHttpCall httpCall) p Global.debug fuel m1 = (r1, m1') ->
    exists (r2 : result (option error)) (m2' : gen2) (new : list outcome),
      retry_loop (Method.doHttpCall DumpResponse (asTempError httpCall)) q
        Method.logError fuel m2 = (r2, m2')
      /\ calls m1' = calls m1 ++ new
      /\ calls m2' = calls m2 ++ map asOutcome3 new
      /\ world m2' = world m1'
      /\ ((exists x, r1 = Ok x) -> exists y, r2 = Ok y).
Proof.
  induction fuel as [|fuel IH];
    intros m1 m1' m2 r1 (Hw & Hclk & Htk & Hrnd & Hdr & Hq) Hrun.
  - cbn in Hrun. injection Hrun as <- <-. exists OutOfFuel, m2, [].
    cbn. rewrite !app_nil_r. repeat split; auto; intros [x [=]].
  - destruct (httpCall (world m1)) as [o w] eqn:Hcall.
    assert (Hcall2 : asTempError httpCall (world m2) = (asOutcome3 o, w)).
    { rewrite Hw. apply asTempError_run, Hcall. }
    pose proof (classify_agree o) as Hcls.
    pose proof (Method_operation_run DumpResponse (asTempError httpCall))
      as Hop2.
    pose proof (Global_operation_run httpCall) as Hop1.
    destruct (Global.classify o) as [[e1|]| |] eqn:Hc.
    + destruct Hcls as [e2 Hc2].
      destruct (heap (scheduler m1) !! p) as [b|] eqn:Hp.
      * destruct (fst (nextBackOff b (clock (scheduler m1) (ticks (scheduler m1)))
                         (rand (scheduler m1) (draws (scheduler m1)))))
          as [wait|] eqn:Hn.
        -- rewrite (ploop_retry httpCall _ Global.classify Global_assigned
                      Global.debug p Hop1 (fun _ _ _ => eq_refl)
                      fuel m1 o w e1 b wait Hcall Hc Hp Hn) in Hrun.
           assert (Hn2 : fst (nextBackOff b
                                (clock (scheduler m2) (ticks (scheduler m2)))
                                (rand (scheduler m2) (draws (scheduler m2))))
                         = Some wait).
           { rewrite Hclk, Htk, Hrnd, Hdr. exact Hn. }
           rewrite (ploop_retry (asTempError httpCall) _
                      (MethodRun.classify DumpResponse)
                      (MethodRun.assigned DumpResponse) Method.logError q
                      Hop2 (fun _ _ _ => eq_refl)
                      fuel m2 (asOutcome3 o) w e2 b wait Hcall2 Hc2 Hq Hn2).
           eapply IH in Hrun.
           ++ destruct Hrun as (r2 & m2' & new & Hloop2 & Hc1 & Hc2' & Hw' & Hok).
              exists r2, m2', (o :: new). split; [exact Hloop2|].
              cbn in Hc1, Hc2'. rewrite <- app_assoc in Hc1, Hc2'.
              repeat split; auto.
           ++ unfold in_step. cbn. rewrite Hclk, Htk, Hrnd, Hdr.
              rewrite !lookup_insert_eq. repeat split; reflexivity.
        -- rewrite (ploop_stop httpCall _ Global.classify Global_assigned
                      Global.debug p Hop1
                      fuel m1 o w e1 b Hcall Hc Hp Hn) in Hrun.
           injection Hrun as <- <-.
           assert (Hn2 : fst (nextBackOff b
                                (clock (scheduler m2) (ticks (scheduler m2)))
                                (rand (scheduler m2) (draws (scheduler m2))))
                         = None).
           { rewrite Hclk, Htk, Hrnd, Hdr. exact Hn. }
           rewrite (ploop_stop (asTempError httpCall) _
                      (MethodRun.classify DumpResponse)
                      (MethodRun.assigned DumpResponse) Method.logError q
                      Hop2 fuel m2 (asOutcome3 o) w e2 b Hcall2 Hc2 Hq Hn2).
           eexists _, _, [o]. split; [reflexivity|]. cbn.
           repeat split; eauto.
      * rewrite (ploop_nil httpCall _ Global.classify Global_assigned
                   Global.debug p Hop1 fuel m1 o w e1 Hcall Hc Hp) in Hrun.
        injection Hrun as <- <-.
        rewrite (ploop_nil (asTempError httpCall) _
                   (MethodRun.classify DumpResponse)
                   (MethodRun.assigned DumpResponse) Method.logError q
                   Hop2 fuel m2 (asOutcome3 o) w e2 Hcall2 Hc2 Hq).
        eexists _, _, [o]. split; [reflexivity|]. cbn.
        repeat split; auto; intros [x [=]].
    + rewrite (ploop_end httpCall _ Global.classify Global_assigned
                 Global.debug p Hop1 fuel m1 o w Hcall (or_introl Hc)), Hc in Hrun.
      injection Hrun as <- <-.
      rewrite (ploop_end (asTempError httpCall) _
                 (MethodRun.classify DumpResponse)
                 (MethodRun.assigned DumpResponse) Method.logError q
                 Hop2 fuel m2 (asOutcome3 o) w Hcall2 (or_introl Hcls)), Hcls.
      eexists _, _, [o]. split; [reflexivity|]. cbn.
      repeat split; eauto.
    + rewrite (ploop_end httpCall _ Global.classify Global_assigned
                 Global.debug p Hop1 fuel m1 o w Hcall (or_intror Hc)), Hc in Hrun.
      injection Hrun as <- <-.
      rewrite (ploop_end (asTempError httpCall) _
                 (MethodRun.classify DumpResponse)
                 (MethodRun.assigned DumpResponse) Method.logError q
                 Hop2 fuel m2 (asOutcome3 o) w Hcall2 (or_intror Hcls)), Hcls.
      eexists _, _, [o]. split; [reflexivity|]. cbn.
      repeat split; auto; intros [x [=]].
    + exfalso. exact (classify_fuel o Hc).
Qed.

(** X17: the two generations make the same attempts. Started in step - the
    same world, clock and draws, and the same scheduler behind the pointer
    of each - on the same operation, passed to the method-based [Retry] the
    way its wrappers do, a run of the package-level [Retry] that returns is
    matched by a run of the method-based [Retry] with the same invocations,
    the same response and the same attempt count. The errors differ in two
    cases only: after a last response of status 5xx the package-level
    [Retry] returns the (Intermittent) error and the method-based one nil,
    and after a last response of another status outside 2xx the message of
    the method-based error carries the dump of the response. *)
Theorem Method_Retry_agrees_with_Retry (p q : loc) (fuel : nat)
    (m1 m1' : gen1) (m2 : gen2) (resp : option Response) (n : Z)
    (e : option error) :
  in_step p q m1 m2 ->
  Global.Retry p httpCall fuel m1 = (Ok (resp, n, e), m1') ->
  exists (m2' : gen2) (e' : option error) (new : list outcome) (o : outcome),
    Method.Retry DumpResponse q (asTempError httpCall) fuel m2
    = (Ok (resp, n, e'), m2')
    /\ calls m1' = calls m1 ++ new
    /\ calls m2' = calls m2 ++ map asOutcome3 new
    /\ world m2' = world m1'
    /\ last new = Some o
    /\ match o with
       | (_, Some x) => e = Some x /\ e' = Some x
       | (Some r, None) =>
           if Z.quot (StatusCode r) 100 =? 5
           then e = Some (Global.intermittent (StatusCode r)) /\ e' = None
           else if Z.quot (StatusCode r) 100 =? 2
           then e = None /\ e' = None
           else e = Some (Global.permanent (StatusCode r))
                /\ e' = Some (MethodRun.permanent DumpResponse r)
       | (None, None) => False
       end.
Proof.
  intros Hstep Hrun.
  destruct (heap (scheduler m1) !! p) as [b|] eqn:Hp;
    [|rewrite (Retry_nil_machine p httpCall fuel m1 Hp) in Hrun; discriminate].
  assert (Hq : heap (scheduler m2) !! q = Some b).
  { destruct Hstep as (_ & _ & _ & _ & _ & ->). exact Hp. }
  destruct (Retry_run p httpCall fuel m1 m1' _ Hrun)
    as (new & Hcalls1 & pre & o & -> & _ & Hn & Hresp & Hverd & _).
  destruct (retry_loop (Global.doHttpCall httpCall) p Global.debug fuel
              (Global.started p b m1)) as [r1 m1s] eqn:Hloop1.
  destruct (Retry_unfold p httpCall fuel m1 m1s b r1 Hp Hloop1)
    as (m' & _ & Hw1 & Hc1 & Hret).
  rewrite Hret in Hrun. injection Hrun as Hr1 <-.
  assert (Hok1 : exists x, r1 = Ok x).
  { destruct r1 as [x| |]; [eauto|discriminate|discriminate]. }
  destruct (loops_agree p (fresh (dom (heap (scheduler m2)))) fuel
              (Global.started p b m1) m1s (MethodRun.started b m2) r1)
    as (r2 & m2s & new' & Hloop2 & Hc1' & Hc2 & Hw2 & Hok); [|exact Hloop1|].
  { destruct Hstep as (Hw & Hclk & Htk & Hrnd & Hdr & _).
    unfold in_step. cbn. rewrite !lookup_insert_eq. repeat split; auto. }
  destruct (Hok Hok1) as [y ->]. clear Hok Hok1 Hr1 Hret.
  cbn [Global.started MethodRun.started calls] in Hc1', Hc2.
  rewrite Hc1, Hc1' in Hcalls1. apply app_inv_head in Hcalls1. subst new'.
  destruct (Method.Retry DumpResponse q (asTempError httpCall) fuel m2)
    as [rM m2'] eqn:HM.
  pose proof HM as HM'.
  rewrite (Method_Retry_after_copy DumpResponse q (asTempError httpCall)
             fuel m2 b Hq) in HM'.
  unfold bind at 1 in HM'. rewrite Hloop2 in HM'.
  assert (Hshape : exists resp2 n2 e2, rM = Ok (resp2, n2, e2) /\ m2' = m2s).
  { unfold Method_after_loop, bind, get_locals, gets in HM'.
    destruct (Method.permError (locals m2s));
      [|destruct (Method.tempError (locals m2s))];
      injection HM' as <- <-; eauto 6. }
  destruct Hshape as (resp2 & n2 & e2 & -> & ->). clear HM'.
  destruct (Method_Retry_run DumpResponse q (asTempError httpCall) fuel m2 m2s
              b _ Hq HM)
    as (new2 & Hcalls2 & _ & pre2 & o2 & -> & _ & _ & Hresp2 & Hn2 & He2).
  rewrite Hc2 in Hcalls2. apply app_inv_head in Hcalls2.
  rewrite map_app in Hcalls2. cbn [map] in Hcalls2.
  apply app_inj_tail in Hcalls2. destruct Hcalls2 as [Hpre2 <-].
  assert (Hlen : length (pre2 ++ [asOutcome3 o]) = length (pre ++ [o])).
  { rewrite <- Hpre2, !length_app, length_map. reflexivity. }
  rewrite Hlen, <- Hn in Hn2. subst n2.
  cbn [asOutcome3 fst] in Hresp2. rewrite <- Hresp in Hresp2. subst resp2.
  exists m2s, e2, (pre ++ [o]), o.
  split; [reflexivity|]. split; [congruence|]. split; [exact Hc2|].
  split; [congruence|]. split; [apply last_snoc|].
  subst e2. unfold Global.verdict in Hverd.
  unfold MethodRun.verdict, MethodRun.permError_after, asOutcome3.
  destruct o as [[r|] [x|]]; cbn in Hverd |- *.
  - injection Hverd as <-. auto.
  - destruct (Z.quot (StatusCode r) 100 =? 5).
    + injection Hverd as <-. auto.
    + destruct (Z.quot (StatusCode r) 100 =? 2); injection Hverd as <-; auto.
  - injection Hverd as <-. auto.
  - discriminate.
Qed.
End Generations.

Lemma Method_Retry_agrees_with_Retry_witness :
  exists m2' (e' : option error) (new : list outcome) (o : outcome),
    Method.Retry Dump 1%positive (asTempError httpGet) 10
      (bench3 settings ms [500; 404])
    = (Ok (Some {| StatusCode := 404; Body := body 404 |}, 2, e'), m2')
    /\ calls (snd (Global.Retry 1%positive httpGet 10
                     (bench settings ms [500; 404])))
       = calls (bench settings ms [500; 404]) ++ new
    /\ calls m2' = calls (bench3 settings ms [500; 404]) ++ map asOutcome3 new
    /\ world m2'
       = world (snd (Global.Retry 1%positive httpGet 10
                       (bench settings ms [500; 404])))
    /\ last new = Some o
    /\ match o with
       | (_, Some x) => Some (Global.permanent 404) = Some x /\ e' = Some x
       | (Some r, None) =>
           if Z.quot (StatusCode r) 100 =? 5
           then Some (Global.permanent 404)
                = Some (Global.intermittent (StatusCode r))
                /\ e' = None
           else if Z.quot (StatusCode r) 100 =? 2
           then Some (Global.permanent 404) = None /\ e' = None
           else Some (Global.permanent 404)
                = Some (Global.permanent (StatusCode r))
                /\ e' = Some (MethodRun.permanent Dump r)
       | (None, None) => False
       end.
Proof.
  apply (Method_Retry_agrees_with_Retry Dump httpGet 1%positive 1%positive 10
           (bench settings ms [500; 404])
           (snd (Global.Retry 1%positive httpGet 10
                   (bench settings ms [500; 404])))
           (bench3 settings ms [500; 404])
           (Some {| StatusCode := 404; Body := body 404 |}) 2
           (Some (Global.permanent 404))).
  - unfold in_step. cbn. repeat split; reflexivity.
  - vm_compute. reflexivity.
Defined.

(** ** A run the scheduler ends *)

Section PointerLoopStop.
Context {W Out L : Type}.
Variable httpCall : W -> Out * W.
Variable operation : M (machine W Out L) (option error).
Variable cls : Out -> result (option error).
Variable upd : Out -> L -> L.
Variable notify : error -> Z -> M (machine W Out L) unit.
Variable q : loc.

Hypothesis operation_run :
  forall m o w,
    httpCall (world m) = (o, w) -> operation m = (cls o, called upd o w m).
Hypothesis notify_run : forall e wait m, notify e wait m = (Ok tt, m).

(** Outcomes that make the loop go on, as many as the scheduler grants
    waits, then one more at which the scheduler answers STOP: the loop
    returns the error of that last outcome. *)
Lemma ploop_stops (pre : list Out) :
  forall (m : machine W Out L) (fuel : nat) (c : ExponentialBackOff)
         (o : Out) (e : error) (w' : W),
    heap (scheduler m) !! q = Some c ->
    stops_after (length pre) c (clock (scheduler m)) (ticks (scheduler m))
      (rand (scheduler m)) (draws (scheduler m)) = true ->
    plays httpCall (world m) (pre ++ [o]) w' ->
    Forall (goes_on cls) pre ->
    cls o = Ok (Some e) ->
    (length pre < fuel)%nat ->
    exists m' : machine W Out L,
      retry_loop operation q notify fuel m = (Ok (Some e), m')
      /\ calls m' = calls m ++ pre ++ [o]
      /\ world m' = w'.
Proof.
  induction pre as [|o1 pre IH];
    intros m fuel c o e w' Hq Hstop Hplay Hpre Ho Hfuel;
    (destruct fuel as [|fuel]; [cbn in Hfuel; lia|]).
  - destruct Hplay as (w1 & Hcall & ->). cbn [length stops_after] in Hstop.
    destruct (fst (nextBackOff c (clock (scheduler m) (ticks (scheduler m)))
                     (rand (scheduler m) (draws (scheduler m)))))
      as [wait|] eqn:Hn; [discriminate|].
    rewrite (ploop_stop httpCall operation cls upd notify q operation_run
               fuel m o w1 e c Hcall Ho Hq Hn).
    eexists. split; [reflexivity|]. split; reflexivity.
  - destruct Hplay as (w1 & Hcall & Hplay).
    inversion Hpre as [|? ? [e1 He1] Hpre']; subst.
    cbn [length stops_after] in Hstop.
    destruct (fst (nextBackOff c (clock (scheduler m) (ticks (scheduler m)))
                     (rand (scheduler m) (draws (scheduler m)))))
      as [wait|] eqn:Hn; [|discriminate].
    rewrite (ploop_retry httpCall operation cls upd notify q operation_run
               notify_run fuel m o1 w1 e1 c wait Hcall He1 Hq Hn).
    destruct (IH (put_sched (slept_on wait (after_next q c (scheduler m)))
                    (called upd o1 w1 m)) fuel _ o e w'
                (lookup_insert_eq _ _ _) Hstop Hplay Hpre' Ho)
      as (m' & Hloop & Hcalls & Hw).
    { cbn in Hfuel. lia. }
    exists m'. split; [exact Hloop|]. cbn in Hcalls.
    rewrite <- app_assoc in Hcalls. split; assumption.
Qed.
End PointerLoopStop.

Section GlobalStop.
Context {W : Type}.
Variable p : loc.
Variable httpCall : W -> outcome * W.

#[local] Abbreviation smachine := (machine W outcome Global.frame).

(** C1: a first response of status 429 is permanent like every other 4xx
    status: [Retry] makes no second attempt, whatever it would return, and
    hands back the 429 response, the attempt count 1 and the (Permanent)
    error of status 429. *)
Theorem Retry_429_is_permanent (fuel : nat) (m : smachine)
    (b : ExponentialBackOff) (r : Response) (w1 : W) :
  heap (scheduler m) !! p = Some b ->
  httpCall (world m) = ((Some r, None), w1) ->
  StatusCode r = 429 ->
  (1 <= fuel)%nat ->
  exists m' : smachine,
    Global.Retry p httpCall fuel m =
      (Ok (Some r, 1,
           Some (BadCode
                   {| HttpResponseCode := 429;
                      Message := "(Permanent) HTTP response code 429" |})),
       m')
    /\ calls m' = calls m ++ [(Some r, None)]
    /\ world m' = w1.
Proof.
  intros Hp Hcall Hs Hfuel.
  destruct fuel as [|fuel]; [lia|].
  destruct (Retry_terminal p httpCall fuel m b r w1 Hp Hcall)
    as (m' & Hret & Hrest).
  { rewrite Hs. discriminate. }
  rewrite Hs in Hret. exists m'. split; [exact Hret|exact Hrest].
Qed.

(** C4: when every attempt returns a 5xx response and the scheduler, after
    granting [length pre] waits, answers STOP, [Retry] returns: it hands
    back the error of the last attempt as it is - the (Intermittent) error
    of the last status - with the last response and the number of attempts
    made, one more than the waits granted. *)
Theorem Retry_stop_returns_last_error (fuel : nat) (m : smachine)
    (b : ExponentialBackOff) (pre : list outcome) (r : Response) (w' : W) :
  heap (scheduler m) !! p = Some b ->
  stops_after (length pre) (reset b) (clock (scheduler m))
    (ticks (scheduler m)) (rand (scheduler m)) (draws (scheduler m)) = true ->
  plays httpCall (world m) (pre ++ [(Some r, None)]) w' ->
  all_5xx (pre ++ [(Some r, None)]) ->
  (length pre < fuel)%nat ->
  Z.of_nat (length pre) + 1 < 2 ^ 63 ->
  exists m' : smachine,
    Global.Retry p httpCall fuel m =
      (Ok (Some r, Z.of_nat (length pre) + 1,
           Some (BadCode
                   {| HttpResponseCode := StatusCode r;
                      Message := "(Intermittent) HTTP response code "
                                 +:+ Itoa (StatusCode r) |})), m')
    /\ calls m' = calls m ++ pre ++ [(Some r, None)]
    /\ world m' = w'
    /\ 1 <= Z.of_nat (length pre) + 1.
Proof.
  intros Hp Hstop Hplay H5xx Hfuel Hbound.
  apply Forall_app in H5xx. destruct H5xx as [Hpre Hlast].
  apply Forall_inv in Hlast. destruct Hlast as (r0 & [= <-] & Hs).
  apply quot100_5xx, Z.eqb_eq in Hs.
  assert (Hc : Global.classify (Some r, None)
               = Ok (Some (Global.intermittent (StatusCode r)))).
  { unfold Global.classify. cbn. rewrite Hs. reflexivity. }
  destruct (ploop_stops httpCall _ Global.classify Global_assigned
              Global.debug p (Global_operation_run httpCall)
              (fun _ _ _ => eq_refl) pre (Global.started p b m) fuel
              (reset b) (Some r, None)
              (Global.intermittent (StatusCode r)) w')
    as (m2 & Hloop & Hcalls & Hw); auto.
  - cbn. apply lookup_insert_eq.
  - eapply Forall_impl; [exact Hpre|]. intros o (r1 & -> & Hs1).
    apply goes_on_retryable. right. split; [reflexivity|]. eauto.
  - destruct (Retry_unfold p httpCall fuel m m2 b _ Hp Hloop)
      as (m' & _ & Hw' & Hcalls' & Hret).
    destruct (Retry_run p httpCall fuel m m' _ Hret)
      as (new & Hnew & pre' & o' & -> & _ & Hn & Hresp & _).
    rewrite Hcalls', Hcalls in Hnew. cbn [Global.started calls] in Hnew.
    apply app_inv_head in Hnew. apply app_inj_tail in Hnew.
    destruct Hnew as [<- <-].
    rewrite length_app, Nat.add_comm in Hn. cbn [length Nat.add] in Hn.
    rewrite incr_counts in Hn by (rewrite Nat2Z.inj_succ; lia).
    rewrite Nat2Z.inj_succ in Hn. cbn [fst] in Hresp.
    exists m'. rewrite Hret, Hn, Hresp, Hcalls', Hw', Hcalls, Hw.
    replace (Z.succ (Z.of_nat (length pre)))
      with (Z.of_nat (length pre) + 1) by lia.
    repeat split; auto. lia.
Qed.
End GlobalStop.

(** An operation whose first response is a 429 and whose second would be a
    200: [Retry] returns the 429 after one attempt, not the 200 after
    two, and the 200 stays in the queue. *)
Lemma Retry_429_then_200_not_retried :
  plays httpGet [429; 200]
    [(Some {| StatusCode := 429; Body := body 429 |}, None);
     (Some {| StatusCode := 200; Body := body 200 |}, None)] []
  /\ fst (Global.Retry 1%positive httpGet 10 (bench settings ms [429; 200]))
     = Ok (Some {| StatusCode := 429; Body := body 429 |}, 1,
           Some (Global.permanent 429))
  /\ fst (Global.Retry 1%positive httpGet 10 (bench settings ms [429; 200]))
     <> Ok (Some {| StatusCode := 200; Body := body 200 |}, 2, None)
  /\ calls (snd (Global.Retry 1%positive httpGet 10
                   (bench settings ms [429; 200])))
     = [(Some {| StatusCode := 429; Body := body 429 |}, None)]
  /\ world (snd (Global.Retry 1%positive httpGet 10
                   (bench settings ms [429; 200])))
     = [200].
Proof.
  split.
  - cbn. eexists. split; [reflexivity|]. eexists. split; reflexivity.
  - split; [vm_compute; reflexivity|].
    split; [vm_compute; discriminate|].
    split; vm_compute; reflexivity.
Qed.

Lemma Retry_429_is_permanent_witness :
  exists m',
    Global.Retry 1%positive httpGet 1 (bench settings ms [429; 200])
    = (Ok (Some {| StatusCode := 429; Body := body 429 |}, 1,
           Some (BadCode
                   {| HttpResponseCode := 429;
                      Message := "(Permanent) HTTP response code 429" |})),
       m')
    /\ calls m' = calls (bench settings ms [429; 200])
                  ++ [(Some {| StatusCode := 429; Body := body 429 |}, None)]
    /\ world m' = [200].
Proof.
  apply (Retry_429_is_permanent 1%positive httpGet 1
           (bench settings ms [429; 200]) settings
           {| StatusCode := 429; Body := body 429 |} [200]).
  - reflexivity.
  - reflexivity.
  - reflexivity.
  - lia.
Defined.

(** A run of 500 responses on a scheduler whose budget any elapsed time
    exceeds: every attempt returned a 5xx response, the scheduler answered
    STOP at its first call, and [Retry] returned the (Intermittent) error
    and the response with an attempt count that is not above 1. *)
Lemma Retry_exhausted_after_one_attempt :
  stops_after 0 (reset impatient)
    (clock (scheduler (bench impatient ms [500; 500; 500])))
    (ticks (scheduler (bench impatient ms [500; 500; 500])))
    (rand (scheduler (bench impatient ms [500; 500; 500])))
    (draws (scheduler (bench impatient ms [500; 500; 500]))) = true
  /\ all_5xx (calls (snd (Global.Retry 1%positive httpGet 10
                            (bench impatient ms [500; 500; 500]))))
  /\ exists n : Z,
       fst (Global.Retry 1%positive httpGet 10
              (bench impatient ms [500; 500; 500]))
       = Ok (Some {| StatusCode := 500; Body := body 500 |}, n,
             Some (Global.intermittent 500))
       /\ ~ 1 < n.
Proof.
  split; [vm_compute; reflexivity|]. split.
  - replace (calls (snd (Global.Retry 1%positive httpGet 10
                           (bench impatient ms [500; 500; 500]))))
      with [(Some {| StatusCode := 500; Body := body 500 |}, @None error)]
      by (vm_compute; reflexivity).
    constructor; [|constructor].
    eexists. split; [reflexivity|]. cbn. lia.
  - exists 1. split; [vm_compute; reflexivity|lia].
Qed.

Lemma Retry_stop_returns_last_error_witness :
  exists m',
    Global.Retry 1%positive httpGet 10
      (bench settings (6 * ms) [500; 500; 500; 500; 500; 500; 500])
    = (Ok (Some {| StatusCode := 500; Body := body 500 |}, 5,
           Some (BadCode
                   {| HttpResponseCode := 500;
                      Message := "(Intermittent) HTTP response code 500" |})),
       m')
    /\ calls m'
       = calls (bench settings (6 * ms) [500; 500; 500; 500; 500; 500; 500])
         ++ repeat (Some {| StatusCode := 500; Body := body 500 |}, None) 4
         ++ [(Some {| StatusCode := 500; Body := body 500 |}, None)]
    /\ world m' = [500; 500]
    /\ 1 <= 5.
Proof.
  apply (Retry_stop_returns_last_error 1%positive httpGet 10
           (bench settings (6 * ms) [500; 500; 500; 500; 500; 500; 500])
           settings
           (repeat (Some {| StatusCode := 500; Body := body 500 |}, None) 4)
           {| StatusCode := 500; Body := body 500 |} [500; 500]).
  - reflexivity.
  - vm_compute. reflexivity.
  - cbn. repeat (eexists; split; [reflexivity|]). reflexivity.
  - unfold all_5xx. cbn.
    repeat (constructor; [eexists; split; [reflexivity|cbn; lia]|]).
    constructor.
  - cbn. lia.
  - cbn. lia.
Defined.
